(** * docs/conf.py: the Sphinx configuration module of SAPPOROBDD 2.0

    The module assigns a handful of configuration values, reads one
    environment variable, and registers one hook, [run_doxygen], that
    creates [_doxygen] next to [conf.py] and runs the external [doxygen]
    program there.  The hook talks to the operating system through
    [os.makedirs], [subprocess.run] and [print]; these are modelled below
    as actions of a state-and-exception monad over a [World] that holds the
    file system, the directories the system refuses to make, the installed
    programs, the environment, the standard output and a log of the
    library calls made.  The hook itself is written over any behaviour of
    [os.makedirs] and [subprocess.run], so that what it catches and what
    it lets through can be stated for every exception. *)

From stdpp Require Import base option decidable countable strings list gmap pretty.

Open Scope Z_scope.

(** ** Paths

    A [path] is a normalised absolute path (what [os.path.abspath]
    returns): the root, or a name below a parent.  [Sub head tail] is the
    pair [os.path.split] gives back. *)

Inductive path :=
  | Root
  | Sub (head : path) (tail : string).

#[global] Instance path_eq_dec : EqDecision path.
Proof. solve_decision. Defined.

(** The names on the way from the root down to the path. *)
Fixpoint components (p : path) : list string :=
  match p with
  | Root => []
  | Sub head tail => components head ++ [tail]
  end.

(** [str(p)]: the components from the root down, each after a slash. *)
Fixpoint path_str_aux (p : path) : string :=
  match p with
  | Root => ""
  | Sub head tail => path_str_aux head +:+ "/" +:+ tail
  end.

Definition path_str (p : path) : string :=
  match p with
  | Root => "/"
  | _ => path_str_aux p
  end.

(** What a program may hand to [os.path.abspath]: a path from the root, or
    names relative to the working directory. *)
Inductive pathname :=
  | Absolute (p : path)
  | Relative (names : list string).

(** [os.path.join(p, name)] for a plain name. *)
Definition join (p : path) (name : string) : path := Sub p name.

(** [os.path.dirname]; the root is its own parent. *)
Definition dirname (p : path) : path :=
  match p with
  | Root => Root
  | Sub head _ => head
  end.

(** ** Exceptions

    The exception classes that the module and the library functions it
    calls can raise or name in an [except] clause, with Python's class
    hierarchy. *)

Inductive pyclass :=
  | BaseException_
  | Exception_
  | OSError_
  | FileExistsError_
  | FileNotFoundError_
  | NotADirectoryError_
  | PermissionError_
  | SubprocessError_
  | CalledProcessError_
  | LookupError_
  | IndexError_
  | SphinxError_
  | ExtensionError_
  | TimeoutExpired_
  | KeyboardInterrupt_.

#[global] Instance pyclass_eq_dec : EqDecision pyclass.
Proof. solve_decision. Defined.

(** The direct base class; [BaseException] has none. *)
Definition base_class (c : pyclass) : option pyclass :=
  match c with
  | BaseException_ => None
  | Exception_ => Some BaseException_
  | OSError_ => Some Exception_
  | FileExistsError_ => Some OSError_
  | FileNotFoundError_ => Some OSError_
  | NotADirectoryError_ => Some OSError_
  | PermissionError_ => Some OSError_
  | SubprocessError_ => Some Exception_
  | CalledProcessError_ => Some SubprocessError_
  | LookupError_ => Some Exception_
  | IndexError_ => Some LookupError_
  | SphinxError_ => Some Exception_
  | ExtensionError_ => Some SphinxError_
  | TimeoutExpired_ => Some SubprocessError_
  | KeyboardInterrupt_ => Some BaseException_
  end.

(** [issubclass c d], walking up at most the depth of the hierarchy. *)
Fixpoint issubclass_fuel (n : nat) (c d : pyclass) : bool :=
  if decide (c = d) then true
  else match n, base_class c with
       | S n', Some b => issubclass_fuel n' b d
       | _, _ => false
       end.

Definition issubclass (c d : pyclass) : bool := issubclass_fuel 4 c d.

(** The [errno] values of the [OSError]s in the model. *)
Inductive errno :=
  | EEXIST
  | ENOENT
  | ENOTDIR
  | EACCES
  | EPERM
  | ENOEXEC
  | EROFS
  | ENOSPC.

#[global] Instance errno_eq_dec : EqDecision errno.
Proof. solve_decision. Defined.

Inductive exn :=
  | OSError (code : errno) (filename : string)
  | CalledProcessError (returncode : Z) (cmd : list string)
  | IndexError
  | ExtensionError (message : string)
  | TimeoutExpired (cmd : list string) (timeout : Z)
  | KeyboardInterrupt.

#[global] Instance exn_eq_dec : EqDecision exn.
Proof. solve_decision. Defined.

(** The class of an exception object; the [OSError] constructor picks the
    subclass from the [errno], and stays [OSError] itself for an [errno]
    without a subclass. *)
Definition class_of (e : exn) : pyclass :=
  match e with
  | OSError EEXIST _ => FileExistsError_
  | OSError ENOENT _ => FileNotFoundError_
  | OSError ENOTDIR _ => NotADirectoryError_
  | OSError EACCES _ => PermissionError_
  | OSError EPERM _ => PermissionError_
  | OSError _ _ => OSError_
  | CalledProcessError _ _ => CalledProcessError_
  | IndexError => IndexError_
  | ExtensionError _ => ExtensionError_
  | TimeoutExpired _ _ => TimeoutExpired_
  | KeyboardInterrupt => KeyboardInterrupt_
  end.

Definition isinstance (e : exn) (c : pyclass) : bool :=
  issubclass (class_of e) c.

(** [str(e)], as an f-string renders an exception.  A process that was
    killed by a signal has a negative return code, and its message names
    the signal through the platform's [signal.Signals] table. *)

Definition errno_number (c : errno) : Z :=
  match c with
  | EEXIST => 17
  | ENOENT => 2
  | ENOTDIR => 20
  | EACCES => 13
  | EPERM => 1
  | ENOEXEC => 8
  | EROFS => 30
  | ENOSPC => 28
  end.

Definition strerror (c : errno) : string :=
  match c with
  | EEXIST => "File exists"
  | ENOENT => "No such file or directory"
  | ENOTDIR => "Not a directory"
  | EACCES => "Permission denied"
  | EPERM => "Operation not permitted"
  | ENOEXEC => "Exec format error"
  | EROFS => "Read-only file system"
  | ENOSPC => "No space left on device"
  end.

(** [repr] of a string without quotes, backslashes or control characters,
    and of a list of such strings. *)
Definition repr_str (s : string) : string := "'" +:+ s +:+ "'".

Definition repr_list (l : list string) : string :=
  "[" +:+ String.concat ", " (repr_str <$> l) +:+ "]".

Definition str_exn (signals : gmap Z string) (e : exn) : string :=
  match e with
  | OSError c filename =>
      "[Errno " +:+ pretty (errno_number c) +:+ "] " +:+ strerror c
        +:+ ": " +:+ repr_str filename
  | CalledProcessError returncode cmd =>
      if returncode <? 0 then
        match signals !! (- returncode) with
        | Some name =>
            "Command '" +:+ repr_list cmd +:+ "' died with <Signals."
              +:+ name +:+ ": " +:+ pretty (- returncode) +:+ ">."
        | None =>
            "Command '" +:+ repr_list cmd +:+ "' died with unknown signal "
              +:+ pretty (- returncode) +:+ "."
        end
      else
        "Command '" +:+ repr_list cmd +:+ "' returned non-zero exit status "
          +:+ pretty returncode +:+ "."
  | IndexError => "list index out of range"
  | ExtensionError message => message
  | TimeoutExpired cmd timeout =>
      "Command '" +:+ repr_list cmd +:+ "' timed out after "
        +:+ pretty timeout +:+ " seconds"
  | KeyboardInterrupt => ""
  end.

(** ** The world outside the module *)

(** A file-system entry is a regular file or a directory with its named
    entries.  The file system is the entries of the root directory. *)
#[warnings="-register-all"]
Inductive node :=
  | File
  | Dir (entries : gmap string node).

(** What a name on the search path resolves to: a file without the
    permission to execute it; a program that can be executed and runs to
    its end, which maps its arguments, its working directory, the file
    system and the environment it inherits to the file system it leaves
    behind, the lines it writes to the shared standard output and its
    return code (negative when a signal ended it); or a file that the
    system refuses to execute with the given error ([ENOEXEC] for a file
    that is no program, [ENOENT] for a script whose interpreter is
    missing). *)
Inductive program :=
  | NotExecutable
  | Executable
      (behaviour : list string -> path -> gmap string node -> gmap string string ->
                   gmap string node * list string * Z)
  | Unrunnable (code : errno).

(** The module-level functions of [conf.py], as values that can be stored
    and called later. *)
Inductive funcobj :=
  | Fn_run_doxygen
  | Fn_setup.

#[global] Instance funcobj_eq_dec : EqDecision funcobj.
Proof. solve_decision. Defined.

(** The Sphinx application's event manager: the event names added by
    extensions, the listeners per event in registration order, and the
    next listener id. *)
Record EventListener := mkEventListener {
  listener_id : nat;
  handler : funcobj;
  priority : Z
}.

#[global] Instance EventListener_eq_dec : EqDecision EventListener.
Proof. solve_decision. Defined.

Record Sphinx := mkSphinx {
  added_events : gset string;
  listeners : gmap string (list EventListener);
  next_listener_id : nat
}.

(** The reference to the application object that Sphinx passes to
    [setup] and to every event handler. *)
Inductive appref : Set :=
  | the_app.

(** The library calls that the module makes, in the order they are made. *)
Inductive call :=
  | Call_makedirs (name : path) (exist_ok : bool)
  | Call_mkdir (name : path)
  | Call_run (args : list string) (cwd : path) (check : bool)
  | Call_connect (event : string) (callback : funcobj).

#[global] Instance call_eq_dec : EqDecision call.
Proof. solve_decision. Defined.

(** [refused] holds the directories that the system will not let the
    process create, by the names of their path, each with the error it
    gives: [EACCES] without the permission to write to the parent,
    [EROFS] on a read-only file system, [ENOSPC] on a full one, [ENOENT]
    below a link that leads nowhere, and so on. *)
Record World := mkWorld {
  environ : gmap string string;
  getcwd : path;
  fs : gmap string node;
  refused : gmap (list string) errno;
  programs : gmap string program;
  signals : gmap Z string;
  stdout : list string;
  calls : list call;
  sphinx : Sphinx
}.

Definition set_environ (env : gmap string string) (w : World) : World :=
  mkWorld env (getcwd w) (fs w) (refused w) (programs w) (signals w) (stdout w)
          (calls w) (sphinx w).

Definition set_fs (f : gmap string node) (w : World) : World :=
  mkWorld (environ w) (getcwd w) f (refused w) (programs w) (signals w) (stdout w)
          (calls w) (sphinx w).

Definition set_refused (r : gmap (list string) errno) (w : World) : World :=
  mkWorld (environ w) (getcwd w) (fs w) r (programs w) (signals w) (stdout w)
          (calls w) (sphinx w).

Definition set_stdout (out : list string) (w : World) : World :=
  mkWorld (environ w) (getcwd w) (fs w) (refused w) (programs w) (signals w) out
          (calls w) (sphinx w).

Definition set_calls (cs : list call) (w : World) : World :=
  mkWorld (environ w) (getcwd w) (fs w) (refused w) (programs w) (signals w) (stdout w)
          cs (sphinx w).

Definition set_sphinx (s : Sphinx) (w : World) : World :=
  mkWorld (environ w) (getcwd w) (fs w) (refused w) (programs w) (signals w) (stdout w)
          (calls w) s.

(** ** Computations: state passing with exceptions

    A computation takes the world and gives back the world it leaves,
    together with a value or the exception it raised.  Changes made
    before an exception is raised stay. *)

Inductive result (A : Type) :=
  | Ok (a : A)
  | Raise (e : exn).

Arguments Ok {A} a.
Arguments Raise {A} e.

Definition M (A : Type) : Type := World -> result A * World.

#[global] Instance M_ret : MRet M := fun A a w => (Ok a, w).

#[global] Instance M_bind : MBind M := fun A B f m w =>
  match m w with
  | (Ok a, w') => f a w'
  | (Raise e, w') => (Raise e, w')
  end.

Definition raise {A} (e : exn) : M A := fun w => (Raise e, w).

Definition gets {A} (f : World -> A) : M A := fun w => (Ok (f w), w).

Definition modify (f : World -> World) : M unit := fun w => (Ok tt, f w).

(** [pass] *)
Definition pass : M unit := mret tt.

Definition log (c : call) : M unit :=
  modify (fun w => set_calls (calls w ++ [c]) w).

(** [try: body / except C1 as e: h1 e / except C2 as e: h2 e / ...]: the
    first clause whose class the exception is an instance of handles it;
    with no such clause the exception goes on to the caller. *)
Definition try_except {A} (body : M A) (clauses : list (pyclass * (exn -> M A))) : M A :=
  fun w =>
    match body w with
    | (Ok a, w') => (Ok a, w')
    | (Raise e, w') =>
        match List.find (fun cl => isinstance e cl.1) clauses with
        | Some cl => cl.2 e w'
        | None => (Raise e, w')
        end
    end.

(** ** The library functions the module calls *)

(** [print(s)] *)
Definition print (s : string) : M unit :=
  modify (fun w => set_stdout (stdout w ++ [s]) w).

(** [os.environ.get(key, None)] *)
Definition os_environ_get (key : string) : M (option string) :=
  gets (fun w => environ w !! key).

(** [os.path.abspath]: a relative name is taken from the working
    directory, and its empty names, [.] and [..] are worked off as
    [os.path.normpath] does. *)
Definition normpath_step (p : path) (name : string) : path :=
  if decide (name = "" \/ name = ".") then p
  else if decide (name = "..") then dirname p
  else Sub p name.

Definition abspath_from (cwd : path) (name : pathname) : path :=
  match name with
  | Absolute p => p
  | Relative names => foldl normpath_step cwd names
  end.

Definition abspath (name : pathname) : M path :=
  gets (fun w => abspath_from (getcwd w) name).

(** Following names down from a node: the node reached, or the error at
    the first name that is missing or is looked up in a regular file. *)
Fixpoint walk (n : node) (names : list string) : errno + node :=
  match names with
  | [] => inr n
  | x :: rest =>
      match n with
      | File => inl ENOTDIR
      | Dir entries =>
          match entries !! x with
          | Some child => walk child rest
          | None => inl ENOENT
          end
      end
  end.

(** [os.stat]: the entry a path leads to. *)
Definition stat (f : gmap string node) (p : path) : errno + node :=
  walk (Dir f) (components p).

(** The node with [new] put at the end of [names]; nothing changes when
    the place is not inside an existing directory. *)
Fixpoint put_node (new : node) (names : list string) (n : node) : node :=
  match names, n with
  | [], _ => new
  | x :: rest, Dir entries =>
      match entries !! x with
      | Some child => Dir (<[x := put_node new rest child]> entries)
      | None =>
          match rest with
          | [] => Dir (<[x := new]> entries)
          | _ :: _ => n
          end
      end
  | _ :: _, File => n
  end.

Definition put (new : node) (p : path) (f : gmap string node) : gmap string node :=
  match put_node new (components p) (Dir f) with
  | Dir entries => entries
  | File => f
  end.

(** [os.path.exists] and [os.path.isdir] *)
Definition exists_in (f : gmap string node) (p : path) : bool :=
  match stat f p with
  | inr _ => true
  | inl _ => false
  end.

Definition isdir_in (f : gmap string node) (p : path) : bool :=
  match stat f p with
  | inr (Dir _) => true
  | _ => false
  end.

Definition path_exists (p : path) : M bool := gets (fun w => exists_in (fs w) p).

Definition path_isdir (p : path) : M bool := gets (fun w => isdir_in (fs w) p).

(** [os.mkdir]: the name must be free and its parent a directory, and
    the system must not refuse. *)
Definition mkdir (name : path) : M unit :=
  log (Call_mkdir name);;
  f ← gets fs;
  match stat f name with
  | inr _ => raise (OSError EEXIST (path_str name))
  | inl ENOENT =>
      match stat f (dirname name) with
      | inr (Dir _) =>
          r ← gets refused;
          match r !! components name with
          | Some code => raise (OSError code (path_str name))
          | None => modify (set_fs (put (Dir ∅) name f))
          end
      | _ => raise (OSError ENOENT (path_str name))
      end
  | inl e => raise (OSError e (path_str name))
  end.

(** The last statement of [os.makedirs]: [mkdir] the leaf; an [OSError]
    from it is swallowed only with [exist_ok] when the path is a
    directory. *)
Definition mkdir_leaf (name : path) (exist_ok : bool) : M unit :=
  try_except (mkdir name)
    [(OSError_, fun e =>
        isdir ← path_isdir name;
        if negb exist_ok || negb (isdir : bool) then raise e else pass)].

(** [os.makedirs(name, exist_ok=exist_ok)], after the library's source:
    make the parent first when it does not exist, ignoring a
    [FileExistsError] from that, then [mkdir] the leaf. *)
Fixpoint makedirs (name : path) (exist_ok : bool) : M unit :=
  log (Call_makedirs name exist_ok);;
  match name with
  | Root => pass
  | Sub head _ =>
      head_exists ← path_exists head;
      if (head_exists : bool) then pass
      else try_except (makedirs head exist_ok)
             [(FileExistsError_, fun _ => pass)]
  end;;
  mkdir_leaf name exist_ok.

(** [subprocess.CompletedProcess] *)
Record CompletedProcess := mkCompletedProcess {
  cp_args : list string;
  cp_returncode : Z
}.

(** [subprocess.run(args, cwd=cwd, check=check)]: the child changes to
    [cwd], then executes the program that [args[0]] resolves to; with
    [check], a non-zero return code raises [CalledProcessError]. *)
Definition subprocess_run (args : list string) (cwd : path) (check : bool)
    : M CompletedProcess :=
  log (Call_run args cwd check);;
  match args with
  | [] => raise IndexError
  | executable :: _ =>
      f ← gets fs;
      match stat f cwd with
      | inl e => raise (OSError e (path_str cwd))
      | inr File => raise (OSError ENOTDIR (path_str cwd))
      | inr (Dir _) =>
          progs ← gets programs;
          match progs !! executable with
          | None => raise (OSError ENOENT executable)
          | Some NotExecutable => raise (OSError EACCES executable)
          | Some (Unrunnable code) => raise (OSError code executable)
          | Some (Executable behaviour) =>
              env ← gets environ;
              let '(f', out, returncode) := behaviour args cwd f env in
              modify (fun w => set_stdout (stdout w ++ out) (set_fs f' w));;
              if check && negb (returncode =? 0)
              then raise (CalledProcessError returncode args)
              else mret (mkCompletedProcess args returncode)
          end
      end
  end.

(** ** The Sphinx application, as far as the module uses it *)

(** The events every Sphinx application knows from the start. *)
Definition core_events : list string :=
  ["config-inited"; "builder-inited"; "env-get-outdated";
   "env-before-read-docs"; "env-purge-doc"; "source-read"; "include-read";
   "doctree-read"; "env-merge-info"; "env-updated"; "env-get-updated";
   "env-check-consistency"; "write-started"; "doctree-resolved";
   "missing-reference"; "warn-missing-reference"; "build-finished"].

Definition known_event (s : Sphinx) (name : string) : bool :=
  bool_decide (name ∈ core_events) || bool_decide (name ∈ added_events s).

Definition add_listener (name : string) (l : EventListener) (s : Sphinx) : Sphinx :=
  mkSphinx (added_events s)
           (<[name := default [] (listeners s !! name) ++ [l]]> (listeners s))
           (S (next_listener_id s)).

(** [app.connect(event, callback)] with the default priority 500: an
    unknown event name is an [ExtensionError]; otherwise the callback
    joins the end of the event's listeners and its new id is returned. *)
Definition connect (app : appref) (event : string) (callback : funcobj) : M nat :=
  log (Call_connect event callback);;
  s ← gets sphinx;
  if known_event s event then
    let listener := mkEventListener (next_listener_id s) callback 500 in
    modify (fun w => set_sphinx (add_listener event listener (sphinx w)) w);;
    mret (next_listener_id s)
  else raise (ExtensionError ("Unknown event name: " +:+ event)).

(** ** The module [conf.py] *)

Inductive pyvalue :=
  | Int (n : Z)
  | Bool (b : bool).

(** The module's global names after it has been evaluated.  [__file__] is
    set by whoever loads the module. *)
Record conf := mkConf {
  __file__ : pathname;
  project : string;
  copyright : string;
  author : string;
  release : string;
  version : string;
  extensions : list string;
  templates_path : list string;
  exclude_patterns : list string;
  language : string;
  html_theme : string;
  html_static_path : list string;
  html_theme_options : gmap string pyvalue;
  read_the_docs_build : bool;
  breathe_projects : gmap string string;
  breathe_default_project : string;
  breathe_default_members : string * string;
  todo_include_todos : bool
}.

(** The names the module body binds, top to bottom.  The one assignment
    that looks outside the module is [read_the_docs_build], which compares
    what [os.environ.get('READTHEDOCS', None)] returned with ['True']. *)
Definition conf_values (file : pathname) (READTHEDOCS : option string) : conf :=
  {|
    __file__ := file;
    project := "SAPPOROBDD 2.0";
    copyright := "2024, SAPPOROBDD Team";
    author := "SAPPOROBDD Team";
    release := "2.0.0";
    version := "2.0";
    extensions :=
      ["breathe"; "sphinx.ext.autodoc"; "sphinx.ext.viewcode";
       "sphinx.ext.todo"; "sphinx.ext.mathjax"];
    templates_path := ["_templates"];
    exclude_patterns := ["_build"; "Thumbs.db"; ".DS_Store"];
    language := "ja";
    html_theme := "sphinx_rtd_theme";
    html_static_path := ["_static"];
    html_theme_options :=
      <["sticky_navigation" := Bool true]>
        (<["collapse_navigation" := Bool false]>
          (<["navigation_depth" := Int 4]> ∅));
    read_the_docs_build := bool_decide (READTHEDOCS = Some "True");
    breathe_projects := {["SAPPOROBDD2" := "_doxygen/xml"]};
    breathe_default_project := "SAPPOROBDD2";
    breathe_default_members := ("members", "undoc-members");
    todo_include_todos := true
  |}.

(** Evaluating the module. *)
Definition conf_module (file : pathname) : M conf :=
  READTHEDOCS ← os_environ_get "READTHEDOCS";
  mret (conf_values file READTHEDOCS).

(** The hook is first written over the two library functions it calls,
    whatever they do, and then with the functions modelled above. *)
Section hook.

Variable os_makedirs : path -> bool -> M unit.
Variable subprocess_run_ : list string -> path -> bool -> M CompletedProcess.

(** The [except] clauses of the [try] statement of [run_doxygen]. *)
Definition doxygen_clauses : list (pyclass * (exn -> M unit)) :=
  [(CalledProcessError_, fun e =>
      sigs ← gets signals;
      print ("Warning: Doxygen failed with error: " +:+ str_exn sigs e));
   (FileNotFoundError_, fun _ =>
      print "Warning: Doxygen not found, skipping XML generation")].

(** The [try] statement of [run_doxygen]: run doxygen in [docs_dir] and
    report how it went. *)
Definition try_doxygen_with (docs_dir : path) : M unit :=
  try_except
    (subprocess_run_ ["doxygen"; "Doxyfile"] docs_dir true;;
     print "Doxygen XML generation completed successfully")
    doxygen_clauses.

(** [run_doxygen(app)], with the module's globals [g] in scope. *)
Definition run_doxygen_with (g : conf) (app : appref) : M unit :=
  file ← abspath (__file__ g);
  let docs_dir := dirname file in
  let doxygen_dir := join docs_dir "_doxygen" in
  os_makedirs doxygen_dir true;;
  try_doxygen_with docs_dir.

End hook.

Definition try_doxygen (docs_dir : path) : M unit :=
  try_doxygen_with subprocess_run docs_dir.

Definition run_doxygen (g : conf) (app : appref) : M unit :=
  run_doxygen_with makedirs subprocess_run g app.

(** [setup(app)] *)
Definition setup (g : conf) (app : appref) : M unit :=
  connect app "builder-inited" Fn_run_doxygen;;
  pass.

(** ** Vocabulary of the properties *)

(** The two paths the hook computes in world [w]: the directory that
    contains [conf.py], and [_doxygen] in it. *)
Definition docs_dir (g : conf) (w : World) : path :=
  dirname (abspath_from (getcwd w) (__file__ g)).

Definition doxygen_dir (g : conf) (w : World) : path :=
  join (docs_dir g w) "_doxygen".

(** The command line of the hook. *)
Definition doxygen_command : list string := ["doxygen"; "Doxyfile"].

Definition is_run (c : call) : bool :=
  match c with
  | Call_run _ _ _ => true
  | _ => false
  end.

Definition is_fs_call (c : call) : bool :=
  match c with
  | Call_makedirs _ _ | Call_mkdir _ => true
  | _ => false
  end.

(** The world after a call has been logged. *)
Definition logged (c : call) (w : World) : World :=
  set_calls (calls w ++ [c]) w.

(** Two worlds that differ at most in the file system and in the log of
    calls, the later log extending the earlier one by [cs]. *)
Definition fs_step (cs : list call) (w w' : World) : Prop :=
  environ w' = environ w /\ getcwd w' = getcwd w /\ programs w' = programs w /\
  signals w' = signals w /\ stdout w' = stdout w /\ sphinx w' = sphinx w /\
  calls w' = calls w ++ cs.


(** A printed line that is a warning. *)
Definition is_warning (line : string) : bool :=
  String.prefix "Warning: " line.

(** The hook, started in [w], gets as far as its call of [subprocess.run],
    and that call raises [e] and leaves the world [w2]. *)
Definition doxygen_call_raises (g : conf) (w : World) (e : exn) (w2 : World) : Prop :=
  exists w1,
    makedirs (doxygen_dir g w) true w = (Ok tt, w1) /\
    subprocess_run doxygen_command (docs_dir g w) true w1 = (Raise e, w2).


(** The calls the hook adds to the log hold exactly one call of
    [subprocess.run], and it is the one for doxygen in [docs_dir]. *)
Definition invokes_doxygen_once (g : conf) (app : appref) (w : World) : Prop :=
  exists cs,
    calls (run_doxygen g app w).2 = calls w ++ cs /\
    filter (fun c => is_run c = true) cs =
      [Call_run doxygen_command (docs_dir g w) true].

(** The globals with another value of [read_the_docs_build]. *)
Definition set_read_the_docs_build (b : bool) (g : conf) : conf :=
  mkConf (__file__ g) (project g) (copyright g) (author g) (release g) (version g)
         (extensions g) (templates_path g) (exclude_patterns g) (language g)
         (html_theme g) (html_static_path g) (html_theme_options g) b
         (breathe_projects g) (breathe_default_project g)
         (breathe_default_members g) (todo_include_todos g).

(** Two environments that agree on every variable but [READTHEDOCS]. *)
Definition same_but_READTHEDOCS (env env' : gmap string string) : Prop :=
  forall key, key <> "READTHEDOCS" -> env' !! key = env !! key.

(** A doxygen that does not look at [READTHEDOCS]. *)
Definition doxygen_ignores_READTHEDOCS (w : World) : Prop :=
  forall behaviour,
    programs w !! "doxygen" = Some (Executable behaviour) ->
    forall args cwd f env env',
      same_but_READTHEDOCS env env' ->
      behaviour args cwd f env' = behaviour args cwd f env.

(** ** Sample worlds

    A checkout at [/repo] with [docs/conf.py] and [docs/Doxyfile]; in
    [blocked_fs] a regular file has the name [_doxygen]. *)

Definition sample_conf_py : path := Sub (Sub (Sub Root "repo") "docs") "conf.py".

Definition sample_fs : gmap string node :=
  {[ "repo" := Dir {[ "docs" := Dir {[ "conf.py" := File; "Doxyfile" := File ]} ]} ]}.

Definition blocked_fs : gmap string node :=
  {[ "repo" :=
       Dir {[ "docs" :=
                Dir {[ "conf.py" := File; "Doxyfile" := File; "_doxygen" := File ]} ]} ]}.

(** A doxygen that writes [xml] into [_doxygen] and returns 0, and one
    that gives up with return code 1. *)
Definition doxygen_works : program :=
  Executable (fun args cwd f env =>
    (put (Dir ∅) (Sub (Sub cwd "_doxygen") "xml") f, ["Generating XML output"], 0)).

Definition doxygen_fails : program :=
  Executable (fun args cwd f env => (f, ["error: Doxyfile not readable"], 1)).

Definition sample_world (env : gmap string string) (f : gmap string node)
    (progs : gmap string program) : World :=
  mkWorld env (Sub Root "repo") f ∅ progs {[ 9 := "SIGKILL" ]} [] []
          (mkSphinx ∅ ∅ 0).

Definition sample_conf : conf := conf_values (Absolute sample_conf_py) None.

(** No doxygen is installed; doxygen works; doxygen fails; the doxygen
    file cannot be executed; and a world in which [_doxygen] is a regular
    file. *)
Definition world_without_doxygen : World := sample_world ∅ sample_fs ∅.

Definition world_with_doxygen : World :=
  sample_world ∅ sample_fs {[ "doxygen" := doxygen_works ]}.

Definition world_failing_doxygen : World :=
  sample_world ∅ sample_fs {[ "doxygen" := doxygen_fails ]}.


Definition blocked_world : World :=
  sample_world ∅ blocked_fs {[ "doxygen" := doxygen_works ]}.

(** No doxygen is installed and [_doxygen] is a regular file. *)
Definition blocked_world_without_doxygen : World := sample_world ∅ blocked_fs ∅.

(** The process may not write to [docs]: making [_doxygen] in it is
    refused with [EACCES]. *)
Definition unwritable_world : World :=
  set_refused {[ ["repo"; "docs"; "_doxygen"] := EACCES ]} world_with_doxygen.

(** The checkout is empty: there is no [docs] yet. *)
Definition bare_world : World :=
  sample_world ∅ {[ "repo" := Dir ∅ ]} {[ "doxygen" := doxygen_works ]}.

(** [docs] is a link that leads nowhere: nothing is found under the name,
    and making a directory of that name is refused with [EEXIST]. *)
Definition dangling_world : World :=
  set_refused {[ ["repo"; "docs"] := EEXIST ]} bare_world.

(** Doxygen is a file that is no program; doxygen is a script whose
    interpreter is missing. *)
Definition world_doxygen_no_program : World :=
  sample_world ∅ sample_fs {[ "doxygen" := Unrunnable ENOEXEC ]}.

Definition world_doxygen_no_interpreter : World :=
  sample_world ∅ sample_fs {[ "doxygen" := Unrunnable ENOENT ]}.

(** Doxygen cannot do its work in [w]: it is not on the search path, or
    it is a program that returns a non-zero code whatever it is given. *)
Definition doxygen_missing_or_failing (w : World) : Prop :=
  programs w !! "doxygen" = None \/
  exists behaviour,
    programs w !! "doxygen" = Some (Executable behaviour) /\
    forall args cwd f env, (behaviour args cwd f env).2 <> 0.

(** Where doxygen cannot do its work, the hook returns normally and the
    last line it has printed is a warning. *)
Definition downgrades_doxygen_failure (g : conf) (app : appref) (w : World) : Prop :=
  doxygen_missing_or_failing w ->
  exists w' out line,
    run_doxygen g app w = (Ok tt, w') /\
    stdout w' = stdout w ++ out ++ [line] /\
    is_warning line = true.

(** The world in which the hook's call of [subprocess.run] ends. *)
Definition after_subprocess_run (g : conf) (w : World) : World :=
  (subprocess_run doxygen_command (docs_dir g w) true
     (makedirs (doxygen_dir g w) true w).2).2.

(** ** Vocabulary of the further properties *)

(** The lines the hook prints. *)
Definition success_line : string := "Doxygen XML generation completed successfully".

Definition not_found_line : string := "Warning: Doxygen not found, skipping XML generation".

Definition failed_prefix : string := "Warning: Doxygen failed with error: ".

(** Nothing that is in [f] is lost or replaced in [f']: a regular file is
    still a regular file, and a directory is still a directory. *)
Definition keeps (f f' : gmap string node) : Prop :=
  forall q,
    (stat f q = inr File -> stat f' q = inr File) /\
    (isdir_in f q = true -> isdir_in f' q = true).

Definition set_getcwd (cwd : path) (w : World) : World :=
  mkWorld (environ w) cwd (fs w) (refused w) (programs w) (signals w) (stdout w)
          (calls w) (sphinx w).

(** The listener that [setup] adds when the next free id is [n]. *)
Definition run_doxygen_listener (n : nat) : EventListener :=
  mkEventListener n Fn_run_doxygen 500.

(** [setup(app)] called [n] times in a row. *)
Fixpoint setup_times (n : nat) (g : conf) (app : appref) : M unit :=
  match n with
  | O => pass
  | S n' => setup g app;; setup_times n' g app
  end.

(** ** Proof steps *)

(** The two clauses of the hook's [try] statement, by cases on the class
    of the exception. *)
Ltac case_clauses e :=
  destruct (isinstance e CalledProcessError_);
  [|destruct (isinstance e FileNotFoundError_)].

(** * Properties *)

(** ** Walking the file system *)

Lemma walk_snoc n l x :
  walk n (l ++ [x]) =
    match walk n l with
    | inl e => inl e
    | inr File => inl ENOTDIR
    | inr (Dir entries) =>
        match entries !! x with
        | Some child => inr child
        | None => inl ENOENT
        end
    end.
Proof.
  revert n. induction l as [|y l IH]; intros n; simpl.
  - destruct n as [|entries]; [done|]. by destruct (entries !! x).
  - destruct n as [|entries]; [done|]. destruct (entries !! y); [apply IH|done].
Qed.

Lemma walk_errno n l e : walk n l = inl e -> e = ENOENT \/ e = ENOTDIR.
Proof.
  revert n. induction l as [|y l IH]; intros n; simpl; [done|].
  destruct n as [|entries]; [naive_solver|].
  destruct (entries !! y); [apply IH|naive_solver].
Qed.

Lemma stat_Sub f head tail :
  stat f (Sub head tail) =
    match stat f head with
    | inl e => inl e
    | inr File => inl ENOTDIR
    | inr (Dir entries) =>
        match entries !! tail with
        | Some child => inr child
        | None => inl ENOENT
        end
    end.
Proof. apply walk_snoc. Qed.

Lemma stat_errno f p e : stat f p = inl e -> e = ENOENT \/ e = ENOTDIR.
Proof. apply walk_errno. Qed.

(** A directory has a directory for a parent. *)
Lemma isdir_in_head f head tail :
  isdir_in f (Sub head tail) = true -> isdir_in f head = true.
Proof.
  unfold isdir_in. rewrite stat_Sub.
  destruct (stat f head) as [e|[|entries]]; done.
Qed.

Lemma put_node_snoc new n l x entries :
  walk n l = inr (Dir entries) ->
  entries !! x = None ->
  walk (put_node new (l ++ [x]) n) (l ++ [x]) = inr new /\
  walk (put_node new (l ++ [x]) n) l = inr (Dir (<[x := new]> entries)).
Proof.
  revert n. induction l as [|y l IH]; intros n Hwalk Hx; simpl in *.
  - injection Hwalk as ->. rewrite Hx. simpl. by rewrite lookup_insert_eq.
  - destruct n as [|es]; [done|].
    destruct (es !! y) as [child|] eqn:Hy; [|done].
    simpl. rewrite lookup_insert_eq. by apply IH.
Qed.

Lemma put_node_Dir new l x f :
  exists entries, put_node new (l ++ [x]) (Dir f) = Dir entries.
Proof.
  destruct l as [|y l]; simpl.
  - destruct (f !! x); eauto.
  - destruct (f !! y); [eauto|]. destruct (l ++ [x]); eauto.
Qed.

(** Putting a new entry into an existing directory: the entry is there
    afterwards, and the parent is still a directory. *)
Lemma stat_put new f head tail entries :
  stat f head = inr (Dir entries) ->
  entries !! tail = None ->
  stat (put new (Sub head tail) f) (Sub head tail) = inr new /\
  stat (put new (Sub head tail) f) head = inr (Dir (<[tail := new]> entries)).
Proof.
  intros Hhead Htail. unfold stat, put. simpl.
  destruct (put_node_Dir new (components head) tail f) as [es Hes].
  destruct (put_node_snoc new (Dir f) (components head) tail entries Hhead Htail)
    as [H1 H2].
  rewrite Hes in *. done.
Qed.

(** ** Running computations *)

(** Four steps up the hierarchy reach [BaseException] from every class,
    so [issubclass] never stops short. *)
Lemma issubclass_BaseException c : issubclass c BaseException_ = true.
Proof. by destruct c. Qed.

Lemma isinstance_OSError c filename :
  isinstance (OSError c filename) OSError_ = true.
Proof. by destruct c. Qed.

(** ** [os.mkdir] and [os.makedirs] *)

Lemma mkdir_eq name w :
  mkdir name w =
    match stat (fs w) name with
    | inr _ => (Raise (OSError EEXIST (path_str name)), logged (Call_mkdir name) w)
    | inl ENOENT =>
        if isdir_in (fs w) (dirname name)
        then match refused w !! components name with
             | Some code =>
                 (Raise (OSError code (path_str name)), logged (Call_mkdir name) w)
             | None =>
                 (Ok tt, set_fs (put (Dir ∅) name (fs w)) (logged (Call_mkdir name) w))
             end
        else (Raise (OSError ENOENT (path_str name)), logged (Call_mkdir name) w)
    | inl e => (Raise (OSError e (path_str name)), logged (Call_mkdir name) w)
    end.
Proof.
  unfold mkdir, isdir_in, mbind, M_bind, log, modify, gets, raise. simpl.
  destruct (stat (fs w) name) as [[]|]; try done.
  destruct (stat (fs w) (dirname name)) as [|[|]]; try done.
  simpl. by destruct (refused w !! components name).
Qed.

(** With [exist_ok], the leaf step succeeds on a directory that is
    already there, and fails on anything else that [mkdir] fails on. *)
Lemma mkdir_leaf_eq name w :
  mkdir_leaf name true w =
    match stat (fs w) name with
    | inr (Dir _) => (Ok tt, logged (Call_mkdir name) w)
    | inr File => (Raise (OSError EEXIST (path_str name)), logged (Call_mkdir name) w)
    | inl ENOENT =>
        if isdir_in (fs w) (dirname name)
        then match refused w !! components name with
             | Some code =>
                 (Raise (OSError code (path_str name)), logged (Call_mkdir name) w)
             | None =>
                 (Ok tt, set_fs (put (Dir ∅) name (fs w)) (logged (Call_mkdir name) w))
             end
        else (Raise (OSError ENOENT (path_str name)), logged (Call_mkdir name) w)
    | inl e => (Raise (OSError e (path_str name)), logged (Call_mkdir name) w)
    end.
Proof.
  unfold mkdir_leaf, try_except. rewrite mkdir_eq.
  destruct (stat (fs w) name) as [e|n] eqn:Hstat.
  - assert (Hno : isdir_in (fs (logged (Call_mkdir name) w)) name = false).
    { unfold isdir_in. simpl. by rewrite Hstat. }
    assert (Hraise : forall c,
      (let (r, w') :=
         (Raise (OSError c (path_str name)) : result unit, logged (Call_mkdir name) w) in
       match r with
       | Ok a => (Ok a, w')
       | Raise e0 =>
           match
             List.find (fun cl : pyclass * (exn -> M unit) => isinstance e0 cl.1)
               [(OSError_, fun e1 =>
                   isdir ← path_isdir name;
                   if negb true || negb (isdir : bool) then raise e1 else pass)]
           with
           | Some cl => cl.2 e0 w'
           | None => (Raise e0, w')
           end
       end) = (Raise (OSError c (path_str name)), logged (Call_mkdir name) w)).
    { intros c. simpl. rewrite isinstance_OSError. simpl.
      unfold mbind, M_bind, path_isdir, gets. by rewrite Hno. }
    destruct e; try apply Hraise.
    destruct (isdir_in (fs w) (dirname name)); [|apply Hraise].
    destruct (refused w !! components name); [apply Hraise|done].
  - simpl. unfold mbind, M_bind, path_isdir, gets, isdir_in. simpl. rewrite Hstat.
    by destruct n.
Qed.

Lemma makedirs_Root ok w :
  makedirs Root ok w = mkdir_leaf Root ok (logged (Call_makedirs Root ok) w).
Proof. reflexivity. Qed.

Lemma makedirs_Sub head tail ok w :
  makedirs (Sub head tail) ok w =
    let w0 := logged (Call_makedirs (Sub head tail) ok) w in
    if exists_in (fs w) head then mkdir_leaf (Sub head tail) ok w0
    else match makedirs head ok w0 with
         | (Ok _, w1) => mkdir_leaf (Sub head tail) ok w1
         | (Raise e, w1) =>
             if isinstance e FileExistsError_
             then mkdir_leaf (Sub head tail) ok w1
             else (Raise e, w1)
         end.
Proof.
  simpl. unfold mbind, M_bind, log, modify, path_exists, gets, logged. simpl.
  destruct (exists_in (fs w) head); [done|].
  unfold try_except.
  destruct (makedirs head ok _) as [[[]|e] w1]; [done|].
  simpl. destruct (isinstance e FileExistsError_); done.
Qed.


(** A regular file is in the place of the directory. *)
Lemma makedirs_file name w :
  stat (fs w) name = inr File ->
  makedirs name true w =
    (Raise (OSError EEXIST (path_str name)),
     logged (Call_mkdir name) (logged (Call_makedirs name true) w)).
Proof.
  intros Hfile. destruct name as [|head tail]; [done|].
  rewrite makedirs_Sub. simpl.
  assert (exists_in (fs w) head = true) as ->.
  { unfold exists_in. rewrite stat_Sub in Hfile.
    by destruct (stat (fs w) head). }
  rewrite mkdir_leaf_eq. simpl. by rewrite Hfile.
Qed.

(** A regular file is in the place of one of the parents. *)
Lemma makedirs_notdir name w :
  stat (fs w) name = inl ENOTDIR ->
  exists p w', makedirs name true w = (Raise (OSError ENOTDIR p), w') /\
               fs w' = fs w.
Proof.
  revert w. induction name as [|head IH tail]; intros w Hstat; [done|].
  rewrite makedirs_Sub. simpl.
  pose proof Hstat as Hhead. rewrite stat_Sub in Hhead.
  unfold exists_in.
  destruct (stat (fs w) head) as [e|[|entries]] eqn:Hh.
  - injection Hhead as ->.
    destruct (IH (logged (Call_makedirs (Sub head tail) true) w) Hh)
      as (p & w' & -> & Hfs).
    simpl. eauto.
  - rewrite mkdir_leaf_eq. simpl. rewrite Hstat. eauto.
  - by destruct (entries !! tail).
Qed.


(** ** What [os.makedirs] leaves alone *)

Lemma fs_step_trans cs1 cs2 w1 w2 w3 :
  fs_step cs1 w1 w2 -> fs_step cs2 w2 w3 -> fs_step (cs1 ++ cs2) w1 w3.
Proof.
  unfold fs_step. intros (?&?&?&?&?&?&Hc1) (?&?&?&?&?&?&Hc2).
  rewrite Hc2, Hc1, <- app_assoc. repeat split; congruence.
Qed.

Lemma fs_step_logged c f w : fs_step [c] w (set_fs f (logged c w)).
Proof. unfold fs_step. simpl. done. Qed.

(** A [try] whose one handler leaves the world alone ends in the world
    its body ends in. *)
Lemma try_except_world {A} (m : M A) c (h : exn -> M A) w :
  (forall e w', (h e w').2 = w') ->
  (try_except m [(c, h)] w).2 = (m w).2.
Proof.
  intros Hh. unfold try_except. destruct (m w) as [[a|e] w']; simpl; [done|].
  destruct (isinstance e c); simpl; done.
Qed.

Lemma mkdir_leaf_step name ok w :
  exists f, (mkdir_leaf name ok w).2 = set_fs f (logged (Call_mkdir name) w).
Proof.
  unfold mkdir_leaf. rewrite try_except_world.
  - rewrite mkdir_eq.
    destruct (stat (fs w) name) as [[]|]; try (by exists (fs w)).
    destruct (isdir_in (fs w) (dirname name)); [|by exists (fs w)].
    destruct (refused w !! components name); [by exists (fs w)|].
    eexists. reflexivity.
  - intros e w'. unfold mbind, M_bind, path_isdir, gets.
    by destruct (negb ok || negb _).
Qed.

Lemma makedirs_step name ok w :
  exists cs, fs_step (Call_makedirs name ok :: cs) w (makedirs name ok w).2 /\
             Forall (fun c => is_fs_call c = true) cs.
Proof.
  revert w. induction name as [|head IH tail]; intros w.
  - rewrite makedirs_Root.
    destruct (mkdir_leaf_step Root ok (logged (Call_makedirs Root ok) w)) as [f ->].
    exists [Call_mkdir Root]. split; [|by repeat constructor].
    apply (fs_step_trans [_] [_] _ _ _ (fs_step_logged _ (fs w) w)).
    apply fs_step_logged.
  - rewrite makedirs_Sub. cbv zeta.
    set (name := Sub head tail). set (w0 := logged (Call_makedirs name ok) w).
    assert (H0 : fs_step [Call_makedirs name ok] w w0)
      by apply (fs_step_logged _ (fs w) w).
    assert (Hleaf : forall cs w1,
      fs_step (Call_makedirs name ok :: cs) w w1 ->
      Forall (fun c => is_fs_call c = true) cs ->
      exists cs', fs_step (Call_makedirs name ok :: cs') w (mkdir_leaf name ok w1).2 /\
                  Forall (fun c => is_fs_call c = true) cs').
    { intros cs w1 Hstep Hcs.
      destruct (mkdir_leaf_step name ok w1) as [f ->].
      exists (cs ++ [Call_mkdir name]). split.
      - apply (fs_step_trans (_ :: _) [_] _ _ _ Hstep), fs_step_logged.
      - apply Forall_app. split; [done|by repeat constructor]. }
    destruct (exists_in (fs w) head); [by apply (Hleaf []) |].
    destruct (IH w0) as (cs & Hstep & Hcs).
    destruct (makedirs head ok w0) as [r w1]. simpl in Hstep.
    assert (H1 : fs_step (Call_makedirs name ok :: Call_makedirs head ok :: cs) w w1)
      by apply (fs_step_trans [_] (_ :: _) _ _ _ H0 Hstep).
    assert (Hcs' : Forall (fun c => is_fs_call c = true) (Call_makedirs head ok :: cs))
      by (constructor; done).
    destruct r as [[]|e]; [by apply (Hleaf _ _ H1)|].
    destruct (isinstance e FileExistsError_); [by apply (Hleaf _ _ H1)|].
    eauto.
Qed.

(** ** [subprocess.run] and the [try] statement *)

Lemma subprocess_run_eq executable args cwd check w :
  subprocess_run (executable :: args) cwd check w =
    let w0 := logged (Call_run (executable :: args) cwd check) w in
    match stat (fs w) cwd with
    | inl e => (Raise (OSError e (path_str cwd)), w0)
    | inr File => (Raise (OSError ENOTDIR (path_str cwd)), w0)
    | inr (Dir _) =>
        match programs w !! executable with
        | None => (Raise (OSError ENOENT executable), w0)
        | Some NotExecutable => (Raise (OSError EACCES executable), w0)
        | Some (Unrunnable code) => (Raise (OSError code executable), w0)
        | Some (Executable behaviour) =>
            let '(f', out, returncode) :=
              behaviour (executable :: args) cwd (fs w) (environ w) in
            let w1 := set_stdout (stdout w ++ out) (set_fs f' w0) in
            if check && negb (returncode =? 0)
            then (Raise (CalledProcessError returncode (executable :: args)), w1)
            else (Ok (mkCompletedProcess (executable :: args) returncode), w1)
        end
    end.
Proof.
  unfold subprocess_run, mbind, M_bind, log, modify, gets, raise, logged. simpl.
  destruct (stat (fs w) cwd) as [e|[|entries]]; [done..|]. simpl.
  destruct (programs w !! executable) as [[|behaviour|code]|]; [done| |done|done]. simpl.
  destruct (behaviour _ _ _ _) as [[f' out] returncode]. simpl.
  destruct (check && negb (returncode =? 0)); done.
Qed.

Lemma subprocess_run_calls args cwd check w :
  calls (subprocess_run args cwd check w).2 = calls w ++ [Call_run args cwd check].
Proof.
  destruct args as [|executable args]; [done|].
  rewrite subprocess_run_eq. simpl.
  destruct (stat (fs w) cwd) as [e|[|entries]]; [done..|].
  destruct (programs w !! executable) as [[|behaviour|code]|]; [done| |done|done].
  destruct (behaviour _ _ _ _) as [[f' out] returncode].
  destruct (check && negb (returncode =? 0)); done.
Qed.

(** The [try] statement over any behaviour of [subprocess.run]. *)
Lemma try_doxygen_with_eq
    (run : list string -> path -> bool -> M CompletedProcess) d w :
  try_doxygen_with run d w =
    match run doxygen_command d true w with
    | (Ok _, w2) =>
        (Ok tt,
         set_stdout (stdout w2 ++ ["Doxygen XML generation completed successfully"]) w2)
    | (Raise e, w2) =>
        if isinstance e CalledProcessError_ then
          (Ok tt,
           set_stdout
             (stdout w2 ++
                ["Warning: Doxygen failed with error: " +:+ str_exn (signals w2) e])
             w2)
        else if isinstance e FileNotFoundError_ then
          (Ok tt,
           set_stdout
             (stdout w2 ++ ["Warning: Doxygen not found, skipping XML generation"])
             w2)
        else (Raise e, w2)
    end.
Proof.
  unfold try_doxygen_with, doxygen_clauses, try_except, doxygen_command.
  unfold mbind at 1. unfold M_bind at 1.
  destruct (run _ d true w) as [[cp|e] w2]; [done|].
  simpl. case_clauses e; done.
Qed.

Lemma try_doxygen_eq d w :
  try_doxygen d w =
    match subprocess_run doxygen_command d true w with
    | (Ok _, w2) =>
        (Ok tt,
         set_stdout (stdout w2 ++ ["Doxygen XML generation completed successfully"]) w2)
    | (Raise e, w2) =>
        if isinstance e CalledProcessError_ then
          (Ok tt,
           set_stdout
             (stdout w2 ++
                ["Warning: Doxygen failed with error: " +:+ str_exn (signals w2) e])
             w2)
        else if isinstance e FileNotFoundError_ then
          (Ok tt,
           set_stdout
             (stdout w2 ++ ["Warning: Doxygen not found, skipping XML generation"])
             w2)
        else (Raise e, w2)
    end.
Proof. apply try_doxygen_with_eq. Qed.

Lemma try_doxygen_calls d w :
  calls (try_doxygen d w).2 = calls w ++ [Call_run doxygen_command d true].
Proof.
  rewrite try_doxygen_eq, <- subprocess_run_calls.
  destruct (subprocess_run _ d true w) as [[cp|e] w2]; [done|].
  case_clauses e; done.
Qed.

(** ** The hook *)

(** The hook over any behaviour of the two library functions: the
    [try] statement is reached when [os.makedirs] returns, and only
    then. *)
Lemma run_doxygen_with_eq
    (mk : path -> bool -> M unit)
    (run : list string -> path -> bool -> M CompletedProcess) g app w :
  run_doxygen_with mk run g app w =
    match mk (doxygen_dir g w) true w with
    | (Ok _, w1) => try_doxygen_with run (docs_dir g w) w1
    | (Raise e, w1) => (Raise e, w1)
    end.
Proof.
  unfold run_doxygen_with, doxygen_dir, docs_dir, abspath, gets.
  unfold mbind at 1. unfold M_bind at 1.
  unfold mbind at 1. unfold M_bind at 1.
  by destruct (mk _ true w) as [[[]|e] w1].
Qed.

Lemma run_doxygen_eq g app w :
  run_doxygen g app w =
    match makedirs (doxygen_dir g w) true w with
    | (Ok _, w1) => try_doxygen (docs_dir g w) w1
    | (Raise e, w1) => (Raise e, w1)
    end.
Proof. apply run_doxygen_with_eq. Qed.

(** The hook's log: the calls that make the directory, then the one call
    that runs doxygen, unless making the directory raised. *)
Lemma run_doxygen_calls g app w :
  exists cs,
    Forall (fun c => is_fs_call c = true) cs /\
    calls (makedirs (doxygen_dir g w) true w).2 =
      calls w ++ Call_makedirs (doxygen_dir g w) true :: cs /\
    calls (run_doxygen g app w).2 =
      calls (makedirs (doxygen_dir g w) true w).2 ++
      match (makedirs (doxygen_dir g w) true w).1 with
      | Ok _ => [Call_run doxygen_command (docs_dir g w) true]
      | Raise _ => []
      end.
Proof.
  destruct (makedirs_step (doxygen_dir g w) true w) as (cs & Hstep & Hcs).
  exists cs. split; [done|]. split; [apply Hstep|].
  rewrite run_doxygen_eq.
  destruct (makedirs _ true w) as [[[]|e] w1]; simpl.
  - apply try_doxygen_calls.
  - by rewrite app_nil_r.
Qed.

Lemma mkdir_leaf_Ok_isdir name w w1 :
  mkdir_leaf name true w = (Ok tt, w1) -> isdir_in (fs w1) name = true.
Proof.
  rewrite mkdir_leaf_eq. unfold isdir_in at 2.
  destruct (stat (fs w) name) as [c|[|entries]] eqn:Hstat.
  - destruct c; try done.
    destruct name as [|head tail]; [done|]. simpl dirname.
    unfold isdir_in. rewrite stat_Sub in Hstat.
    destruct (stat (fs w) head) as [|[|es]] eqn:Hhead; try done.
    destruct (es !! tail) eqn:Htail; [done|].
    destruct (refused w !! components (Sub head tail)); [done|].
    intros [= <-]. simpl.
    destruct (stat_put (Dir ∅) (fs w) head tail es Hhead Htail) as [-> _]. done.
  - done.
  - intros [= <-]. simpl. by rewrite Hstat.
Qed.

(** When [os.makedirs] returns, the directory is there. *)
Lemma makedirs_Ok_isdir name w w1 :
  makedirs name true w = (Ok tt, w1) -> isdir_in (fs w1) name = true.
Proof.
  destruct name as [|head tail].
  - rewrite makedirs_Root. apply mkdir_leaf_Ok_isdir.
  - rewrite makedirs_Sub. cbv zeta.
    destruct (exists_in (fs w) head); [apply mkdir_leaf_Ok_isdir|].
    destruct (makedirs head true _) as [[[]|e] w0]; [apply mkdir_leaf_Ok_isdir|].
    destruct (isinstance e FileExistsError_); [apply mkdir_leaf_Ok_isdir|done].
Qed.

Lemma filter_is_run_fs_calls cs :
  Forall (fun c => is_fs_call c = true) cs ->
  filter (fun c => is_run c = true) cs = [].
Proof.
  induction 1 as [|c cs Hc _ IH]; [done|].
  rewrite filter_cons_False; [done|]. by destruct c.
Qed.

(** ** The environment is only handed on *)

Lemma mkdir_leaf_set_environ name ok env w :
  mkdir_leaf name ok (set_environ env w) =
    let (r, w1) := mkdir_leaf name ok w in (r, set_environ env w1).
Proof.
  unfold mkdir_leaf, try_except. rewrite !mkdir_eq. simpl.
  destruct (stat (fs w) name) as [[]|];
    try destruct (isdir_in (fs w) (dirname name));
    try destruct (refused w !! components name); simpl; try done;
    rewrite ?isinstance_OSError; simpl;
    unfold mbind, M_bind, path_isdir, gets; simpl;
    by destruct (negb ok || negb _).
Qed.

Lemma logged_set_environ c env w :
  logged c (set_environ env w) = set_environ env (logged c w).
Proof. reflexivity. Qed.

Lemma makedirs_set_environ name ok env w :
  makedirs name ok (set_environ env w) =
    let (r, w1) := makedirs name ok w in (r, set_environ env w1).
Proof.
  revert w. induction name as [|head IH tail]; intros w.
  - rewrite !makedirs_Root, logged_set_environ. apply mkdir_leaf_set_environ.
  - rewrite !makedirs_Sub. cbv zeta. rewrite logged_set_environ.
    change (fs (set_environ env w)) with (fs w).
    destruct (exists_in (fs w) head); [apply mkdir_leaf_set_environ|].
    rewrite IH.
    destruct (makedirs head ok _) as [[[]|e] w1]; [apply mkdir_leaf_set_environ|].
    destruct (isinstance e FileExistsError_); [apply mkdir_leaf_set_environ|done].
Qed.

Lemma subprocess_run_set_environ d env w :
  same_but_READTHEDOCS (environ w) env ->
  doxygen_ignores_READTHEDOCS w ->
  subprocess_run doxygen_command d true (set_environ env w) =
    let (r, w2) := subprocess_run doxygen_command d true w in
    (r, set_environ env w2).
Proof.
  intros Henv Hignores. unfold doxygen_command.
  rewrite !subprocess_run_eq. simpl.
  destruct (stat (fs w) d) as [e|[|entries]]; [done..|].
  destruct (programs w !! "doxygen") as [[|behaviour|code]|] eqn:Hprog; [done| |done|done].
  rewrite (Hignores behaviour Hprog _ _ _ _ _ Henv).
  destruct (behaviour _ _ _ _) as [[f' out] returncode].
  by destruct (negb (returncode =? 0)).
Qed.

Lemma try_doxygen_set_environ d env w :
  same_but_READTHEDOCS (environ w) env ->
  doxygen_ignores_READTHEDOCS w ->
  try_doxygen d (set_environ env w) =
    let (r, w2) := try_doxygen d w in (r, set_environ env w2).
Proof.
  intros Henv Hignores.
  rewrite !try_doxygen_eq, subprocess_run_set_environ by done.
  destruct (subprocess_run _ d true w) as [[cp|e] w2]; [done|].
  case_clauses e; done.
Qed.

(** ** When the call of [subprocess.run] raises

    Once [os.makedirs] has returned, the working directory of the call
    exists, so what the call does depends on doxygen alone: with no
    doxygen on the search path it raises [FileNotFoundError], and with a
    doxygen that returns a non-zero code it raises [CalledProcessError]. *)

Lemma missing_doxygen_raises g w w1 :
  makedirs (doxygen_dir g w) true w = (Ok tt, w1) ->
  programs w !! "doxygen" = None ->
  doxygen_call_raises g w (OSError ENOENT "doxygen")
    (logged (Call_run doxygen_command (docs_dir g w) true) w1).
Proof.
  intros Hmk Hnone. exists w1. split; [done|].
  pose proof (isdir_in_head _ _ _ (makedirs_Ok_isdir _ _ _ Hmk)) as Hdir.
  destruct (makedirs_step (doxygen_dir g w) true w) as (cs & (_ & _ & Hprogs & _) & _).
  rewrite Hmk in Hprogs. simpl in Hprogs.
  unfold doxygen_command. rewrite subprocess_run_eq. cbv zeta.
  unfold isdir_in in Hdir.
  destruct (stat (fs w1) (docs_dir g w)) as [|[|]]; [done..|].
  by rewrite Hprogs, Hnone.
Qed.

Lemma failing_doxygen_raises g w w1 behaviour f' out returncode :
  makedirs (doxygen_dir g w) true w = (Ok tt, w1) ->
  programs w !! "doxygen" = Some (Executable behaviour) ->
  behaviour doxygen_command (docs_dir g w) (fs w1) (environ w) = (f', out, returncode) ->
  returncode <> 0 ->
  doxygen_call_raises g w (CalledProcessError returncode doxygen_command)
    (set_stdout (stdout w1 ++ out)
       (set_fs f' (logged (Call_run doxygen_command (docs_dir g w) true) w1))).
Proof.
  intros Hmk Hprog Hrun Hcode. exists w1. split; [done|].
  pose proof (isdir_in_head _ _ _ (makedirs_Ok_isdir _ _ _ Hmk)) as Hdir.
  destruct (makedirs_step (doxygen_dir g w) true w)
    as (cs & (Henv & _ & Hprogs & _) & _).
  rewrite Hmk in Hprogs, Henv. simpl in Hprogs, Henv.
  unfold doxygen_command in *. rewrite subprocess_run_eq. cbv zeta.
  unfold isdir_in in Hdir.
  destruct (stat (fs w1) (docs_dir g w)) as [|[|]]; [done..|].
  rewrite Hprogs, Hprog, Henv, Hrun.
  apply Z.eqb_neq in Hcode. by rewrite Hcode.
Qed.

(** ** The hook and the module against their specification *)

(** C1, as amended.  In every invocation of [run_doxygen] in which
    [os.makedirs] returns and the call of [subprocess.run] then raises
    [FileNotFoundError] (no doxygen executable) or [CalledProcessError]
    (doxygen returned a non-zero status), the hook catches the exception,
    prints one line, which is a warning, and returns normally: its caller
    sees no exception. *)
Theorem run_doxygen_downgrades_doxygen_failure g app w w1 e w2 :
  makedirs (doxygen_dir g w) true w = (Ok tt, w1) ->
  subprocess_run doxygen_command (docs_dir g w) true w1 = (Raise e, w2) ->
  isinstance e FileNotFoundError_ = true \/ isinstance e CalledProcessError_ = true ->
  exists line,
    is_warning line = true /\
    run_doxygen g app w = (Ok tt, set_stdout (stdout w2 ++ [line]) w2).
Proof.
  intros Hmk Hrun Hclass.
  rewrite run_doxygen_eq, Hmk, try_doxygen_eq, Hrun.
  destruct (isinstance e CalledProcessError_) eqn:Hcalled.
  - eexists. split; [|reflexivity]. reflexivity.
  - destruct Hclass as [-> | ?]; [|done]. eexists. split; [|reflexivity]. reflexivity.
Qed.

Lemma run_doxygen_downgrades_doxygen_failure_witness :
  (exists line,
     is_warning line = true /\
     run_doxygen sample_conf the_app world_without_doxygen =
       (Ok tt,
        set_stdout
          (stdout (after_subprocess_run sample_conf world_without_doxygen) ++ [line])
          (after_subprocess_run sample_conf world_without_doxygen))) /\
  (exists line,
     is_warning line = true /\
     run_doxygen sample_conf the_app world_failing_doxygen =
       (Ok tt,
        set_stdout
          (stdout (after_subprocess_run sample_conf world_failing_doxygen) ++ [line])
          (after_subprocess_run sample_conf world_failing_doxygen))).
Proof.
  split.
  - apply (run_doxygen_downgrades_doxygen_failure
             sample_conf the_app world_without_doxygen
             (makedirs (doxygen_dir sample_conf world_without_doxygen) true
                world_without_doxygen).2
             (OSError ENOENT "doxygen")).
    + vm_compute. reflexivity.
    + vm_compute. reflexivity.
    + left. reflexivity.
  - apply (run_doxygen_downgrades_doxygen_failure
             sample_conf the_app world_failing_doxygen
             (makedirs (doxygen_dir sample_conf world_failing_doxygen) true
                world_failing_doxygen).2
             (CalledProcessError 1 doxygen_command)).
    + vm_compute. reflexivity.
    + vm_compute. reflexivity.
    + right. reflexivity.
Defined.

(** C1, as stated, fails where no doxygen is installed and a regular
    file has the name [_doxygen]: [os.makedirs] is called before the
    [try] statement and raises [FileExistsError], which leaves the hook;
    no warning is printed. *)
Lemma run_doxygen_downgrades_doxygen_failure_counterexample :
  ~ downgrades_doxygen_failure sample_conf the_app blocked_world_without_doxygen.
Proof.
  intros Hclaim. destruct Hclaim as (w' & out & line & Hrun & _).
  - left. reflexivity.
  - vm_compute in Hrun. discriminate Hrun.
Qed.




(** C3, as amended.  An invocation of [run_doxygen] whose call of
    [os.makedirs] returns calls [subprocess.run] exactly once, with the
    command [['doxygen', 'Doxyfile']] (so [Doxyfile] is the sole
    argument of doxygen), the directory that contains [conf.py] as
    working directory, and [check=True]; an invocation whose call of
    [os.makedirs] raises does not call [subprocess.run]. *)
Theorem run_doxygen_invokes_doxygen_once g app w :
  (forall w1,
     makedirs (doxygen_dir g w) true w = (Ok tt, w1) ->
     invokes_doxygen_once g app w) /\
  (forall e w1,
     makedirs (doxygen_dir g w) true w = (Raise e, w1) ->
     exists cs,
       calls (run_doxygen g app w).2 = calls w ++ cs /\
       filter (fun c => is_run c = true) cs = []).
Proof.
  destruct (run_doxygen_calls g app w) as (cs & Hcs & Hmk & Hrun).
  rewrite Hmk in Hrun.
  pose proof (filter_is_run_fs_calls _ Hcs) as Hnone.
  split.
  - intros w1 Hw1. rewrite Hw1, <- app_assoc in Hrun.
    eexists. split; [exact Hrun|]. simpl.
    rewrite filter_cons_False by done.
    rewrite filter_app, Hnone. done.
  - intros e w1 Hw1. rewrite Hw1, app_nil_r in Hrun.
    eexists. split; [exact Hrun|].
    rewrite filter_cons_False by done. done.
Qed.

Lemma run_doxygen_invokes_doxygen_once_witness :
  invokes_doxygen_once sample_conf the_app world_with_doxygen.
Proof.
  apply (proj1 (run_doxygen_invokes_doxygen_once sample_conf the_app world_with_doxygen)
           (makedirs (doxygen_dir sample_conf world_with_doxygen) true
              world_with_doxygen).2).
  vm_compute. reflexivity.
Defined.

(** C3, as stated, fails where a regular file has the name [_doxygen]:
    the hook raises before it reaches [subprocess.run], so doxygen is not
    invoked at all. *)
Lemma run_doxygen_invokes_doxygen_once_counterexample :
  ~ invokes_doxygen_once sample_conf the_app blocked_world.
Proof.
  intros (cs & Hcalls & Hfilter).
  vm_compute in Hcalls. subst cs. vm_compute in Hfilter. discriminate Hfilter.
Qed.

(** C4.  Evaluating the module registers nothing and changes nothing
    outside it.  [setup] makes exactly one call on the application, which
    connects [run_doxygen] to the event [builder-inited]: the callback
    joins the end of that event's listeners, the listeners of every other
    event and the known events stay as they were, and nothing else of the
    world changes. *)
Theorem setup_connects_run_doxygen g app w :
  (forall file, (conf_module file w).2 = w) /\
  exists w',
    setup g app w = (Ok tt, w') /\
    calls w' = calls w ++ [Call_connect "builder-inited" Fn_run_doxygen] /\
    listeners (sphinx w') !! "builder-inited" =
      Some (default [] (listeners (sphinx w) !! "builder-inited") ++
            [mkEventListener (next_listener_id (sphinx w)) Fn_run_doxygen 500]) /\
    (forall event, event <> "builder-inited" ->
       listeners (sphinx w') !! event = listeners (sphinx w) !! event) /\
    added_events (sphinx w') = added_events (sphinx w) /\
    next_listener_id (sphinx w') = S (next_listener_id (sphinx w)) /\
    environ w' = environ w /\ getcwd w' = getcwd w /\ fs w' = fs w /\
    programs w' = programs w /\ signals w' = signals w /\ stdout w' = stdout w.
Proof.
  split; [done|].
  eexists. split; [reflexivity|]. simpl.
  split; [done|]. split; [by rewrite lookup_insert_eq|].
  split; [|done]. intros event Hevent. by rewrite lookup_insert_ne.
Qed.

(** C5.  Evaluating the module reads [READTHEDOCS] from the environment
    and binds [read_the_docs_build] to true exactly when the variable is
    set to the string [True]; in particular the flag is false when the
    variable is not set. *)
Theorem read_the_docs_build_iff file w :
  exists g,
    conf_module file w = (Ok g, w) /\
    (read_the_docs_build g = true <-> environ w !! "READTHEDOCS" = Some "True") /\
    (read_the_docs_build g = false <-> environ w !! "READTHEDOCS" <> Some "True") /\
    (environ w !! "READTHEDOCS" = None -> read_the_docs_build g = false).
Proof.
  eexists. split; [reflexivity|]. simpl.
  split; [apply bool_decide_eq_true|].
  split; [apply bool_decide_eq_false|].
  intros ->. done.
Qed.

(** C6.  The static configuration values are the literals of the source,
    whatever the environment. *)
Theorem static_configuration_values file w :
  exists g,
    conf_module file w = (Ok g, w) /\
    project g = "SAPPOROBDD 2.0" /\
    release g = "2.0.0" /\
    version g = "2.0" /\
    language g = "ja" /\
    html_theme g = "sphinx_rtd_theme" /\
    breathe_default_project g = "SAPPOROBDD2" /\
    extensions g =
      ["breathe"; "sphinx.ext.autodoc"; "sphinx.ext.viewcode";
       "sphinx.ext.todo"; "sphinx.ext.mathjax"] /\
    length (extensions g) = 5%nat.
Proof. eexists. split; [reflexivity|]. repeat split. Qed.

(** C7.  The [try] statement has exactly two [except] clauses, for
    [CalledProcessError] and for [FileNotFoundError], and it holds the
    call of [subprocess.run] but not the call of [os.makedirs].
    Whatever the two library functions do: an exception that
    [os.makedirs] raises leaves the hook as it is, whatever its class,
    also when it is a [FileNotFoundError]; an exception that
    [subprocess.run] raises is caught exactly when it is an instance of
    one of the two classes, and leaves the hook otherwise.  With the
    library as modelled, [os.makedirs] does raise an [OSError] when a
    component of the path exists as a regular file, and so does the
    hook. *)
Theorem run_doxygen_catches_two_kinds
    (os_makedirs : path -> bool -> M unit)
    (subprocess_run_ : list string -> path -> bool -> M CompletedProcess)
    g app w :
  doxygen_clauses.*1 = [CalledProcessError_; FileNotFoundError_] /\
  (forall e w1,
     os_makedirs (doxygen_dir g w) true w = (Raise e, w1) ->
     run_doxygen_with os_makedirs subprocess_run_ g app w = (Raise e, w1)) /\
  (forall w1 e w2,
     os_makedirs (doxygen_dir g w) true w = (Ok tt, w1) ->
     subprocess_run_ doxygen_command (docs_dir g w) true w1 = (Raise e, w2) ->
     if isinstance e CalledProcessError_ || isinstance e FileNotFoundError_
     then (run_doxygen_with os_makedirs subprocess_run_ g app w).1 = Ok tt
     else run_doxygen_with os_makedirs subprocess_run_ g app w = (Raise e, w2)) /\
  run_doxygen g app = run_doxygen_with makedirs subprocess_run g app /\
  (stat (fs w) (doxygen_dir g w) = inr File \/
   stat (fs w) (doxygen_dir g w) = inl ENOTDIR ->
   exists c p w1,
     run_doxygen g app w = (Raise (OSError c p), w1) /\
     isinstance (OSError c p) OSError_ = true).
Proof.
  split; [done|]. split; [|split; [|split; [done|]]].
  - intros e w1 Hmk. by rewrite run_doxygen_with_eq, Hmk.
  - intros w1 e w2 Hmk Hrun.
    rewrite run_doxygen_with_eq, Hmk, try_doxygen_with_eq, Hrun.
    case_clauses e; done.
  - intros [Hfile | Hnotdir]; rewrite run_doxygen_eq.
    + rewrite (makedirs_file _ w Hfile).
      eexists _, _, _. split; [done|]. apply isinstance_OSError.
    + destruct (makedirs_notdir _ w Hnotdir) as (p & w1 & -> & _).
      eexists _, _, _. split; [done|]. apply isinstance_OSError.
Qed.

(** A [FileNotFoundError] from [os.makedirs], where [docs] is a link that
    leads nowhere, and a [PermissionError] from it, where [docs] may not
    be written to, leave the hook; so does the plain [OSError] that
    [subprocess.run] raises for a doxygen that is no program, and a
    [TimeoutExpired], which is a [SubprocessError] but no
    [CalledProcessError]; the [FileNotFoundError] that [subprocess.run]
    raises for a script without its interpreter is caught. *)
Lemma run_doxygen_catches_two_kinds_witness :
  run_doxygen sample_conf the_app dangling_world =
    (Raise (OSError ENOENT "/repo/docs/_doxygen"),
     (makedirs (doxygen_dir sample_conf dangling_world) true dangling_world).2) /\
  run_doxygen sample_conf the_app unwritable_world =
    (Raise (OSError EACCES "/repo/docs/_doxygen"),
     (makedirs (doxygen_dir sample_conf unwritable_world) true unwritable_world).2) /\
  run_doxygen sample_conf the_app world_doxygen_no_program =
    (Raise (OSError ENOEXEC "doxygen"),
     after_subprocess_run sample_conf world_doxygen_no_program) /\
  run_doxygen_with makedirs
      (fun args _ _ => raise (TimeoutExpired args 60))
      sample_conf the_app world_with_doxygen =
    (Raise (TimeoutExpired doxygen_command 60),
     (makedirs (doxygen_dir sample_conf world_with_doxygen) true world_with_doxygen).2) /\
  (run_doxygen sample_conf the_app world_doxygen_no_interpreter).1 = Ok tt.
Proof.
  split; [|split; [|split; [|split]]].
  - apply (proj1 (proj2 (run_doxygen_catches_two_kinds
                           makedirs subprocess_run sample_conf the_app dangling_world))).
    vm_compute. reflexivity.
  - apply (proj1 (proj2 (run_doxygen_catches_two_kinds
                           makedirs subprocess_run sample_conf the_app unwritable_world))).
    vm_compute. reflexivity.
  - apply (proj1 (proj2 (proj2 (run_doxygen_catches_two_kinds
                                  makedirs subprocess_run sample_conf the_app
                                  world_doxygen_no_program)))
             (makedirs (doxygen_dir sample_conf world_doxygen_no_program) true
                world_doxygen_no_program).2
             (OSError ENOEXEC "doxygen")).
    + vm_compute. reflexivity.
    + vm_compute. reflexivity.
  - apply (proj1 (proj2 (proj2 (run_doxygen_catches_two_kinds
                                  makedirs (fun args _ _ => raise (TimeoutExpired args 60))
                                  sample_conf the_app world_with_doxygen)))
             (makedirs (doxygen_dir sample_conf world_with_doxygen) true
                world_with_doxygen).2
             (TimeoutExpired doxygen_command 60)).
    + vm_compute. reflexivity.
    + reflexivity.
  - apply (proj1 (proj2 (proj2 (run_doxygen_catches_two_kinds
                                  makedirs subprocess_run sample_conf the_app
                                  world_doxygen_no_interpreter)))
             (makedirs (doxygen_dir sample_conf world_doxygen_no_interpreter) true
                world_doxygen_no_interpreter).2
             (OSError ENOENT "doxygen")
             (after_subprocess_run sample_conf world_doxygen_no_interpreter)).
    + vm_compute. reflexivity.
    + vm_compute. reflexivity.
Defined.

(** C8.  Take two executions that differ only in [READTHEDOCS]: the
    module is evaluated, and then the hook is run, in a world [w] and in
    the same world with an environment [env'] that agrees with that of
    [w] on every other variable.  The two calls of [os.makedirs] have
    the same argument, the same outcome and leave the same file system;
    the two logs of calls are the same, so doxygen is invoked alike; the
    hook does not read [read_the_docs_build], whatever its value; and
    when doxygen itself does not look at the variable, the two runs of
    the hook end alike, up to the environment they started from. *)
Theorem run_doxygen_independent_of_READTHEDOCS file app w env' :
  same_but_READTHEDOCS (environ w) env' ->
  exists g g',
    conf_module file w = (Ok g, w) /\
    conf_module file (set_environ env' w) = (Ok g', set_environ env' w) /\
    doxygen_dir g' (set_environ env' w) = doxygen_dir g w /\
    makedirs (doxygen_dir g' (set_environ env' w)) true (set_environ env' w) =
      (let (r, w1) := makedirs (doxygen_dir g w) true w in (r, set_environ env' w1)) /\
    calls (run_doxygen g' app (set_environ env' w)).2 =
      calls (run_doxygen g app w).2 /\
    (forall b, run_doxygen (set_read_the_docs_build b g) app = run_doxygen g app) /\
    (doxygen_ignores_READTHEDOCS w ->
     run_doxygen g' app (set_environ env' w) =
       (let (r, w2) := run_doxygen g app w in (r, set_environ env' w2))).
Proof.
  intros Henv. eexists _, _.
  split; [reflexivity|]. split; [reflexivity|]. split; [reflexivity|].
  set (g := conf_values file (environ w !! "READTHEDOCS")).
  set (g' := conf_values file (environ (set_environ env' w) !! "READTHEDOCS")).
  change (doxygen_dir g' (set_environ env' w)) with (doxygen_dir g w).
  pose proof (makedirs_set_environ (doxygen_dir g w) true env' w) as Hmk.
  split; [exact Hmk|]. split; [|split; [done|]].
  - destruct (run_doxygen_calls g app w) as (_ & _ & _ & ->).
    destruct (run_doxygen_calls g' app (set_environ env' w)) as (_ & _ & _ & ->).
    change (doxygen_dir g' (set_environ env' w)) with (doxygen_dir g w).
    rewrite Hmk. by destruct (makedirs (doxygen_dir g w) true w) as [[[]|e] w1].
  - intros Hignores. rewrite !run_doxygen_eq.
    change (doxygen_dir g' (set_environ env' w)) with (doxygen_dir g w).
    change (docs_dir g' (set_environ env' w)) with (docs_dir g w).
    rewrite Hmk.
    destruct (makedirs_step (doxygen_dir g w) true w)
      as (cs & (Hen & _ & Hprogs & _) & _).
    destruct (makedirs (doxygen_dir g w) true w) as [[[]|e] w1]; [|done].
    simpl in Hen, Hprogs. apply try_doxygen_set_environ.
    + by rewrite Hen.
    + unfold doxygen_ignores_READTHEDOCS. by rewrite Hprogs.
Qed.

Lemma run_doxygen_independent_of_READTHEDOCS_witness :
  exists g g',
    conf_module (Absolute sample_conf_py) world_with_doxygen = (Ok g, world_with_doxygen) /\
    conf_module (Absolute sample_conf_py)
        (set_environ {[ "READTHEDOCS" := "True" ]} world_with_doxygen) =
      (Ok g', set_environ {[ "READTHEDOCS" := "True" ]} world_with_doxygen) /\
    read_the_docs_build g = false /\
    read_the_docs_build g' = true /\
    calls (run_doxygen g' the_app
             (set_environ {[ "READTHEDOCS" := "True" ]} world_with_doxygen)).2 =
      calls (run_doxygen g the_app world_with_doxygen).2.
Proof.
  destruct (run_doxygen_independent_of_READTHEDOCS
              (Absolute sample_conf_py) the_app world_with_doxygen
              {[ "READTHEDOCS" := "True" ]})
    as (g & g' & Hg & Hg' & _ & _ & Hcalls & _).
  - intros key Hkey. rewrite lookup_singleton_ne by done. reflexivity.
  - exists g, g'. split; [exact Hg|]. split; [exact Hg'|].
    injection Hg as <-. injection Hg' as <-.
    split; [reflexivity|]. split; [reflexivity|]. exact Hcalls.
Defined.

(** C9.  The calls the hook adds to the log are: [os.makedirs] on the
    output directory, the calls that [os.makedirs] makes in turn, all of
    them on the file system, and last the call of [subprocess.run] when
    [os.makedirs] returned, and nothing when it raised.  When
    [subprocess.run] is reached the output directory exists. *)
Theorem makedirs_precedes_doxygen g app w :
  exists cs,
    Forall (fun c => is_fs_call c = true /\ is_run c = false) cs /\
    calls (run_doxygen g app w).2 =
      calls w ++ Call_makedirs (doxygen_dir g w) true :: cs ++
      match (makedirs (doxygen_dir g w) true w).1 with
      | Ok _ => [Call_run doxygen_command (docs_dir g w) true]
      | Raise _ => []
      end /\
    (forall w1,
       makedirs (doxygen_dir g w) true w = (Ok tt, w1) ->
       isdir_in (fs w1) (doxygen_dir g w) = true /\
       run_doxygen g app w = try_doxygen (docs_dir g w) w1) /\
    (forall e w1,
       makedirs (doxygen_dir g w) true w = (Raise e, w1) ->
       run_doxygen g app w = (Raise e, w1) /\
       filter (fun c => is_run c = true) (calls w1) =
         filter (fun c => is_run c = true) (calls w)).
Proof.
  destruct (run_doxygen_calls g app w) as (cs & Hcs & Hmk & Hrun).
  exists cs. split; [|split; [|split]].
  - eapply Forall_impl; [exact Hcs|]. intros c Hc. by destruct c.
  - rewrite Hrun, Hmk, <- app_assoc. done.
  - intros w1 Hw1. split; [by apply (makedirs_Ok_isdir _ w)|].
    by rewrite run_doxygen_eq, Hw1.
  - intros e w1 Hw1. split; [by rewrite run_doxygen_eq, Hw1|].
    rewrite Hw1 in Hmk. simpl in Hmk. rewrite Hmk, filter_app.
    rewrite filter_cons_False by done.
    by rewrite (filter_is_run_fs_calls _ Hcs), app_nil_r.
Qed.

(** ** How the directory step and the call of doxygen can end *)

(** The worlds that [os.makedirs] and the [try] statement leave differ
    from the ones they start in only where they must. *)
Lemma makedirs_frame name ok w :
  environ (makedirs name ok w).2 = environ w /\
  getcwd (makedirs name ok w).2 = getcwd w /\
  programs (makedirs name ok w).2 = programs w /\
  signals (makedirs name ok w).2 = signals w /\
  stdout (makedirs name ok w).2 = stdout w /\
  sphinx (makedirs name ok w).2 = sphinx w.
Proof.
  destruct (makedirs_step name ok w) as (cs & (?&?&?&?&?&?&_) & _). done.
Qed.

Lemma try_doxygen_frame d w :
  environ (try_doxygen d w).2 = environ w /\
  getcwd (try_doxygen d w).2 = getcwd w /\
  programs (try_doxygen d w).2 = programs w /\
  signals (try_doxygen d w).2 = signals w /\
  sphinx (try_doxygen d w).2 = sphinx w.
Proof.
  rewrite try_doxygen_eq. unfold doxygen_command. rewrite subprocess_run_eq. cbv zeta.
  destruct (stat (fs w) d) as [c|[|entries]];
    [by case_clauses (OSError c (path_str d))
    |by case_clauses (OSError ENOTDIR (path_str d))|].
  destruct (programs w !! "doxygen") as [[|behaviour|code]|];
    [done| |by case_clauses (OSError code "doxygen")|done].
  destruct (behaviour _ _ _ _) as [[f' out] returncode].
  destruct (true && negb (returncode =? 0)); [|done].
  by case_clauses (CalledProcessError returncode ["doxygen"; "Doxyfile"]).
Qed.

(** What the call of [subprocess.run] does once [os.makedirs] has
    returned: the working directory is there, so only doxygen decides. *)
Lemma subprocess_run_after_makedirs g w w1 :
  makedirs (doxygen_dir g w) true w = (Ok tt, w1) ->
  subprocess_run doxygen_command (docs_dir g w) true w1 =
    let w0 := logged (Call_run doxygen_command (docs_dir g w) true) w1 in
    match programs w !! "doxygen" with
    | None => (Raise (OSError ENOENT "doxygen"), w0)
    | Some NotExecutable => (Raise (OSError EACCES "doxygen"), w0)
    | Some (Unrunnable code) => (Raise (OSError code "doxygen"), w0)
    | Some (Executable behaviour) =>
        let '(f', out, returncode) :=
          behaviour doxygen_command (docs_dir g w) (fs w1) (environ w) in
        let w2 := set_stdout (stdout w ++ out) (set_fs f' w0) in
        if negb (returncode =? 0)
        then (Raise (CalledProcessError returncode doxygen_command), w2)
        else (Ok (mkCompletedProcess doxygen_command returncode), w2)
    end.
Proof.
  intros Hmk.
  pose proof (isdir_in_head _ _ _ (makedirs_Ok_isdir _ _ _ Hmk)) as Hdir.
  pose proof (makedirs_frame (doxygen_dir g w) true w) as (Henv & _ & Hprogs & _ & Hout & _).
  rewrite Hmk in Henv, Hprogs, Hout. simpl in Henv, Hprogs, Hout.
  unfold doxygen_command. rewrite subprocess_run_eq. cbv zeta.
  unfold isdir_in in Hdir.
  destruct (stat (fs w1) (docs_dir g w)) as [|[|]]; [done..|].
  rewrite Hprogs, Henv, Hout. done.
Qed.

(** ** Further properties of the hook *)

(** X1.  When the output directory could be made and doxygen returns 0,
    the hook returns normally; what it adds to the standard output is
    doxygen's own lines followed by the line that reports success, and
    the file system is the one doxygen left. *)
Theorem run_doxygen_success g app w w1 behaviour f' out :
  makedirs (doxygen_dir g w) true w = (Ok tt, w1) ->
  programs w !! "doxygen" = Some (Executable behaviour) ->
  behaviour doxygen_command (docs_dir g w) (fs w1) (environ w) = (f', out, 0) ->
  exists w',
    run_doxygen g app w = (Ok tt, w') /\
    stdout w' = stdout w ++ out ++ [success_line] /\
    fs w' = f'.
Proof.
  intros Hmk Hprog Hrun.
  rewrite run_doxygen_eq, Hmk, try_doxygen_eq, (subprocess_run_after_makedirs _ _ _ Hmk).
  cbv zeta. rewrite Hprog, Hrun. simpl.
  eexists. split; [reflexivity|]. simpl. by rewrite <- app_assoc.
Qed.

Lemma run_doxygen_success_witness :
  exists w',
    run_doxygen sample_conf the_app world_with_doxygen = (Ok tt, w') /\
    stdout w' = [] ++ ["Generating XML output"] ++ [success_line] /\
    isdir_in (fs w') (Sub (doxygen_dir sample_conf world_with_doxygen) "xml") = true.
Proof.
  destruct (run_doxygen_success sample_conf the_app world_with_doxygen
              (makedirs (doxygen_dir sample_conf world_with_doxygen) true
                 world_with_doxygen).2
              (fun args cwd f env =>
                 (put (Dir ∅) (Sub (Sub cwd "_doxygen") "xml") f,
                  ["Generating XML output"], 0))
              (put (Dir ∅) (Sub (doxygen_dir sample_conf world_with_doxygen) "xml")
                 (fs (makedirs (doxygen_dir sample_conf world_with_doxygen) true
                        world_with_doxygen).2))
              ["Generating XML output"])
    as (w' & Hrun & Hout & Hfs).
  - vm_compute. reflexivity.
  - reflexivity.
  - reflexivity.
  - exists w'. split; [exact Hrun|]. split; [exact Hout|].
    rewrite Hfs. vm_compute. reflexivity.
Defined.

(** X2.  When the output directory could be made and the search path has
    no doxygen, the hook returns normally, prints exactly the line
    [Warning: Doxygen not found, skipping XML generation], and leaves the
    file system as the directory step left it. *)
Theorem run_doxygen_not_found g app w w1 :
  makedirs (doxygen_dir g w) true w = (Ok tt, w1) ->
  programs w !! "doxygen" = None ->
  exists w',
    run_doxygen g app w = (Ok tt, w') /\
    stdout w' = stdout w ++ [not_found_line] /\
    fs w' = fs w1.
Proof.
  intros Hmk Hprog.
  rewrite run_doxygen_eq, Hmk, try_doxygen_eq, (subprocess_run_after_makedirs _ _ _ Hmk).
  cbv zeta. rewrite Hprog. simpl.
  pose proof (makedirs_frame (doxygen_dir g w) true w) as (_ & _ & _ & _ & Hout & _).
  rewrite Hmk in Hout. simpl in Hout.
  eexists. split; [reflexivity|]. simpl. by rewrite Hout.
Qed.

Lemma run_doxygen_not_found_witness :
  exists w',
    run_doxygen sample_conf the_app world_without_doxygen = (Ok tt, w') /\
    stdout w' = stdout world_without_doxygen ++ [not_found_line] /\
    fs w' = fs (makedirs (doxygen_dir sample_conf world_without_doxygen) true
                  world_without_doxygen).2.
Proof.
  apply (run_doxygen_not_found sample_conf the_app world_without_doxygen).
  - vm_compute. reflexivity.
  - reflexivity.
Defined.

(** X3.  When the output directory could be made and doxygen returns a
    code other than 0, negative codes of a doxygen that a signal ended
    included, the hook returns normally; it adds doxygen's own lines and
    then the line [Warning: Doxygen failed with error: ] followed by the
    text of the [CalledProcessError] for the command and that code; the
    file system is the one doxygen left.  For a positive code the text
    names the command and the code; for a negative one it names the
    signal, by its name where the platform has one. *)
Theorem run_doxygen_failed g app w w1 behaviour f' out returncode :
  makedirs (doxygen_dir g w) true w = (Ok tt, w1) ->
  programs w !! "doxygen" = Some (Executable behaviour) ->
  behaviour doxygen_command (docs_dir g w) (fs w1) (environ w) = (f', out, returncode) ->
  returncode <> 0 ->
  exists w',
    run_doxygen g app w = (Ok tt, w') /\
    stdout w' =
      stdout w ++ out ++
      [failed_prefix +:+
       str_exn (signals w) (CalledProcessError returncode doxygen_command)] /\
    fs w' = f' /\
    (0 < returncode ->
     str_exn (signals w) (CalledProcessError returncode doxygen_command) =
       "Command '['doxygen', 'Doxyfile']' returned non-zero exit status "
         +:+ pretty returncode +:+ ".") /\
    (forall name, returncode < 0 -> signals w !! (- returncode) = Some name ->
     str_exn (signals w) (CalledProcessError returncode doxygen_command) =
       "Command '['doxygen', 'Doxyfile']' died with <Signals." +:+ name +:+ ": "
         +:+ pretty (- returncode) +:+ ">.") /\
    (returncode < 0 -> signals w !! (- returncode) = None ->
     str_exn (signals w) (CalledProcessError returncode doxygen_command) =
       "Command '['doxygen', 'Doxyfile']' died with unknown signal "
         +:+ pretty (- returncode) +:+ ".").
Proof.
  intros Hmk Hprog Hrun Hcode.
  rewrite run_doxygen_eq, Hmk, try_doxygen_eq, (subprocess_run_after_makedirs _ _ _ Hmk).
  cbv zeta. rewrite Hprog, Hrun.
  apply Z.eqb_neq in Hcode. rewrite Hcode. simpl negb. cbv iota.
  change (isinstance (CalledProcessError returncode doxygen_command) CalledProcessError_)
    with true. cbv iota.
  pose proof (makedirs_frame (doxygen_dir g w) true w) as (_ & _ & _ & Hsig & _).
  rewrite Hmk in Hsig. simpl in Hsig.
  eexists. split; [reflexivity|]. simpl stdout. simpl signals. rewrite Hsig.
  split; [by rewrite <- app_assoc|]. split; [done|].
  unfold str_exn. split; [|split].
  - intros Hpos. rewrite (proj2 (Z.ltb_ge returncode 0)) by lia. reflexivity.
  - intros name Hneg Hname. rewrite (proj2 (Z.ltb_lt returncode 0)) by lia.
    rewrite Hname. reflexivity.
  - intros Hneg Hname. rewrite (proj2 (Z.ltb_lt returncode 0)) by lia.
    rewrite Hname. reflexivity.
Qed.

Lemma run_doxygen_failed_witness :
  exists w',
    run_doxygen sample_conf the_app world_failing_doxygen = (Ok tt, w') /\
    stdout w' =
      stdout world_failing_doxygen ++ ["error: Doxyfile not readable"] ++
      [failed_prefix +:+
       "Command '['doxygen', 'Doxyfile']' returned non-zero exit status 1."] /\
    fs w' = fs (makedirs (doxygen_dir sample_conf world_failing_doxygen) true
                  world_failing_doxygen).2.
Proof.
  destruct (run_doxygen_failed sample_conf the_app world_failing_doxygen
              (makedirs (doxygen_dir sample_conf world_failing_doxygen) true
                 world_failing_doxygen).2
              (fun args cwd f env => (f, ["error: Doxyfile not readable"], 1))
              (fs (makedirs (doxygen_dir sample_conf world_failing_doxygen) true
                     world_failing_doxygen).2)
              ["error: Doxyfile not readable"] 1)
    as (w' & Hrun & Hout & Hfs & Hpos & _).
  - vm_compute. reflexivity.
  - reflexivity.
  - reflexivity.
  - discriminate.
  - exists w'. split; [exact Hrun|]. split; [|exact Hfs].
    rewrite Hout, Hpos by reflexivity. reflexivity.
Defined.





(** X5.  Whatever the two library functions do, an exception that leaves
    the hook was raised by [os.makedirs], or it was raised by
    [subprocess.run] and is an instance neither of [CalledProcessError]
    nor of [FileNotFoundError]; in both cases the hook ends in the world
    in which the exception was raised.  The hook raises nothing of its
    own ([print] is taken not to fail). *)
Theorem run_doxygen_raises_only
    (os_makedirs : path -> bool -> M unit)
    (subprocess_run_ : list string -> path -> bool -> M CompletedProcess)
    g app w e w' :
  run_doxygen_with os_makedirs subprocess_run_ g app w = (Raise e, w') ->
  os_makedirs (doxygen_dir g w) true w = (Raise e, w') \/
  exists w1,
    os_makedirs (doxygen_dir g w) true w = (Ok tt, w1) /\
    subprocess_run_ doxygen_command (docs_dir g w) true w1 = (Raise e, w') /\
    isinstance e CalledProcessError_ = false /\
    isinstance e FileNotFoundError_ = false.
Proof.
  rewrite run_doxygen_with_eq.
  destruct (os_makedirs (doxygen_dir g w) true w) as [[[]|e1] w1]; [|by left].
  rewrite try_doxygen_with_eq.
  destruct (subprocess_run_ _ _ true w1) as [[cp|e2] w2] eqn:Hrun; [done|].
  destruct (isinstance e2 CalledProcessError_) eqn:Hcalled; [done|].
  destruct (isinstance e2 FileNotFoundError_) eqn:Hfound; [done|].
  intros [= <- <-]. right. exists w1. repeat split; done.
Qed.

Lemma run_doxygen_raises_only_witness :
  makedirs (doxygen_dir sample_conf world_doxygen_no_program) true
      world_doxygen_no_program =
    (Raise (OSError ENOEXEC "doxygen"),
     (run_doxygen sample_conf the_app world_doxygen_no_program).2) \/
  exists w1,
    makedirs (doxygen_dir sample_conf world_doxygen_no_program) true
        world_doxygen_no_program = (Ok tt, w1) /\
    subprocess_run doxygen_command (docs_dir sample_conf world_doxygen_no_program)
        true w1 =
      (Raise (OSError ENOEXEC "doxygen"),
       (run_doxygen sample_conf the_app world_doxygen_no_program).2) /\
    isinstance (OSError ENOEXEC "doxygen") CalledProcessError_ = false /\
    isinstance (OSError ENOEXEC "doxygen") FileNotFoundError_ = false.
Proof.
  apply (run_doxygen_raises_only makedirs subprocess_run sample_conf the_app
           world_doxygen_no_program).
  vm_compute. reflexivity.
Defined.



(** X7.  The hook does not use its argument and leaves the application
    alone: the listeners and the known events are as before, and so are
    the environment, the working directory of the process and the
    programs on the search path. *)
Theorem run_doxygen_leaves_application_alone g app w :
  sphinx (run_doxygen g app w).2 = sphinx w /\
  environ (run_doxygen g app w).2 = environ w /\
  getcwd (run_doxygen g app w).2 = getcwd w /\
  programs (run_doxygen g app w).2 = programs w /\
  signals (run_doxygen g app w).2 = signals w.
Proof.
  rewrite run_doxygen_eq.
  pose proof (makedirs_frame (doxygen_dir g w) true w) as (?&?&?&?&_&?).
  destruct (makedirs (doxygen_dir g w) true w) as [[[]|e1] w1]; [|done].
  pose proof (try_doxygen_frame (docs_dir g w) w1) as (?&?&?&?&?).
  simpl in *. repeat split; congruence.
Qed.

(** ** Making directories loses nothing *)

Lemma keeps_refl f : keeps f f.
Proof. by intros q. Qed.

Lemma keeps_trans f1 f2 f3 : keeps f1 f2 -> keeps f2 f3 -> keeps f1 f3.
Proof.
  intros H12 H23 q. destruct (H12 q) as [? ?], (H23 q) as [? ?]. split; auto.
Qed.

(** Putting an entry where nothing was changes no entry that was there. *)
Lemma put_node_keeps new names n q :
  walk n names = inl ENOENT ->
  (walk n q = inr File -> walk (put_node new names n) q = inr File) /\
  (forall entries, walk n q = inr (Dir entries) ->
     exists entries', walk (put_node new names n) q = inr (Dir entries')).
Proof.
  revert n q. induction names as [|x rest IH]; intros n q Hnew; [done|].
  destruct n as [|es]; [done|]. simpl in Hnew. simpl put_node.
  destruct (es !! x) as [child|] eqn:Hx.
  - destruct q as [|y q]; [split; [done|intros ? _; eauto]|].
    simpl. destruct (decide (x = y)) as [->|Hne].
    + rewrite Hx, lookup_insert_eq. by apply IH.
    + rewrite lookup_insert_ne by done.
      destruct (es !! y); [|done]. split; [done|eauto].
  - destruct rest as [|x' rest]; [|split; eauto].
    destruct q as [|y q]; [split; [done|intros ? _; eauto]|].
    simpl. destruct (decide (x = y)) as [->|Hne].
    + by rewrite Hx.
    + rewrite lookup_insert_ne by done.
      destruct (es !! y); [|done]. split; [done|eauto].
Qed.

Lemma put_keeps new name f :
  stat f name = inl ENOENT -> keeps f (put new name f).
Proof.
  intros Hnew. destruct name as [|head tail]; [done|].
  intros q. unfold isdir_in, stat, put in *. simpl in *.
  destruct (put_node_Dir new (components head) tail f) as [es Hes].
  destruct (put_node_keeps new (components head ++ [tail]) (Dir f) (components q) Hnew)
    as [Hfile Hdir].
  rewrite Hes in *. split; [done|].
  destruct (walk (Dir f) (components q)) as [|[|entries]]; [done..|].
  intros _. by destruct (Hdir entries eq_refl) as [es' ->].
Qed.

Lemma mkdir_leaf_keeps name ok w : keeps (fs w) (fs (mkdir_leaf name ok w).2).
Proof.
  unfold mkdir_leaf. rewrite try_except_world.
  - rewrite mkdir_eq.
    destruct (stat (fs w) name) as [[]|] eqn:Hstat; try apply keeps_refl.
    destruct (isdir_in (fs w) (dirname name)); [|apply keeps_refl].
    destruct (refused w !! components name); [apply keeps_refl|].
    by apply put_keeps.
  - intros e w'. unfold mbind, M_bind, path_isdir, gets.
    by destruct (negb ok || negb _).
Qed.

Lemma makedirs_keeps name ok w : keeps (fs w) (fs (makedirs name ok w).2).
Proof.
  revert w. induction name as [|head IH tail]; intros w.
  - rewrite makedirs_Root. apply (mkdir_leaf_keeps Root ok (logged _ w)).
  - rewrite makedirs_Sub. cbv zeta.
    set (w0 := logged (Call_makedirs (Sub head tail) ok) w).
    destruct (exists_in (fs w) head); [apply (mkdir_leaf_keeps _ ok w0)|].
    pose proof (IH w0) as Hhead.
    destruct (makedirs head ok w0) as [[[]|e] w1]; simpl in Hhead.
    + apply (keeps_trans _ _ _ Hhead), mkdir_leaf_keeps.
    + destruct (isinstance e FileExistsError_); [|done].
      apply (keeps_trans _ _ _ Hhead), mkdir_leaf_keeps.
Qed.

(** X8.  Making the output directory removes and replaces nothing: every
    regular file is still a regular file and every directory still a
    directory afterwards.  Unless doxygen itself is run, this holds for
    the whole invocation of the hook. *)
Theorem run_doxygen_keeps_entries g app w :
  keeps (fs w) (fs (makedirs (doxygen_dir g w) true w).2) /\
  ((forall behaviour, programs w !! "doxygen" <> Some (Executable behaviour)) ->
   keeps (fs w) (fs (run_doxygen g app w).2)).
Proof.
  pose proof (makedirs_keeps (doxygen_dir g w) true w) as Hkeeps.
  split; [done|]. intros Hnot.
  rewrite run_doxygen_eq.
  destruct (makedirs (doxygen_dir g w) true w) as [[[]|e1] w1] eqn:Hmk; [|done].
  rewrite try_doxygen_eq, (subprocess_run_after_makedirs _ _ _ Hmk). cbv zeta.
  destruct (programs w !! "doxygen") as [[|behaviour|code]|];
    [done| |by case_clauses (OSError code "doxygen")|done].
  by destruct (Hnot behaviour).
Qed.

Lemma run_doxygen_keeps_entries_witness :
  keeps (fs world_without_doxygen)
        (fs (run_doxygen sample_conf the_app world_without_doxygen).2).
Proof.
  apply (proj2 (run_doxygen_keeps_entries sample_conf the_app world_without_doxygen)).
  intros behaviour. discriminate.
Defined.

(** ** The working directory of the process is not looked at *)

Lemma logged_set_getcwd c cwd w :
  logged c (set_getcwd cwd w) = set_getcwd cwd (logged c w).
Proof. reflexivity. Qed.

Lemma mkdir_leaf_set_getcwd name ok cwd w :
  mkdir_leaf name ok (set_getcwd cwd w) =
    let (r, w1) := mkdir_leaf name ok w in (r, set_getcwd cwd w1).
Proof.
  unfold mkdir_leaf, try_except. rewrite !mkdir_eq. simpl.
  destruct (stat (fs w) name) as [[]|];
    try destruct (isdir_in (fs w) (dirname name));
    try destruct (refused w !! components name); simpl; try done;
    rewrite ?isinstance_OSError; simpl;
    unfold mbind, M_bind, path_isdir, gets; simpl;
    by destruct (negb ok || negb _).
Qed.

Lemma makedirs_set_getcwd name ok cwd w :
  makedirs name ok (set_getcwd cwd w) =
    let (r, w1) := makedirs name ok w in (r, set_getcwd cwd w1).
Proof.
  revert w. induction name as [|head IH tail]; intros w.
  - rewrite !makedirs_Root, logged_set_getcwd. apply mkdir_leaf_set_getcwd.
  - rewrite !makedirs_Sub. cbv zeta. rewrite logged_set_getcwd.
    change (fs (set_getcwd cwd w)) with (fs w).
    destruct (exists_in (fs w) head); [apply mkdir_leaf_set_getcwd|].
    rewrite IH.
    destruct (makedirs head ok _) as [[[]|e] w1]; [apply mkdir_leaf_set_getcwd|].
    destruct (isinstance e FileExistsError_); [apply mkdir_leaf_set_getcwd|done].
Qed.

Lemma try_doxygen_set_getcwd d cwd w :
  try_doxygen d (set_getcwd cwd w) =
    let (r, w2) := try_doxygen d w in (r, set_getcwd cwd w2).
Proof.
  rewrite !try_doxygen_eq. unfold doxygen_command. rewrite !subprocess_run_eq.
  cbv zeta. simpl.
  destruct (stat (fs w) d) as [c|[|entries]];
    [by case_clauses (OSError c (path_str d))
    |by case_clauses (OSError ENOTDIR (path_str d))|].
  destruct (programs w !! "doxygen") as [[|behaviour|code]|];
    [done| |by case_clauses (OSError code "doxygen")|done].
  destruct (behaviour _ _ _ _) as [[f' out] returncode].
  by destruct (negb (returncode =? 0)).
Qed.

(** X9.  With an absolute [__file__] the hook does not depend on the
    working directory of the process: the directory it makes and runs
    doxygen in is the one that contains [conf.py], and from another
    working directory the hook does the same and ends in the same world,
    up to that working directory. *)
Theorem run_doxygen_independent_of_getcwd g app w file cwd' :
  __file__ g = Absolute file ->
  docs_dir g w = dirname file /\
  doxygen_dir g w = join (dirname file) "_doxygen" /\
  run_doxygen g app (set_getcwd cwd' w) =
    (let (r, w2) := run_doxygen g app w in (r, set_getcwd cwd' w2)).
Proof.
  intros Hfile.
  assert (Hdocs : forall w0, docs_dir g w0 = dirname file)
    by (intros w0; unfold docs_dir; by rewrite Hfile).
  split; [apply Hdocs|]. split; [unfold doxygen_dir; by rewrite Hdocs|].
  rewrite !run_doxygen_eq. unfold doxygen_dir. rewrite !Hdocs.
  rewrite makedirs_set_getcwd.
  destruct (makedirs _ true w) as [[[]|e] w1]; [|done].
  apply try_doxygen_set_getcwd.
Qed.

Lemma run_doxygen_independent_of_getcwd_witness :
  docs_dir sample_conf world_with_doxygen = dirname sample_conf_py /\
  doxygen_dir sample_conf world_with_doxygen = join (dirname sample_conf_py) "_doxygen" /\
  run_doxygen sample_conf the_app (set_getcwd Root world_with_doxygen) =
    (let (r, w2) := run_doxygen sample_conf the_app world_with_doxygen in
     (r, set_getcwd Root w2)).
Proof.
  apply (run_doxygen_independent_of_getcwd
           sample_conf the_app world_with_doxygen sample_conf_py Root).
  reflexivity.
Defined.

(** ** Registering more than once *)

Lemma setup_eq g app w :
  setup g app w =
    (Ok tt,
     set_sphinx
       (add_listener "builder-inited"
          (run_doxygen_listener (next_listener_id (sphinx w))) (sphinx w))
       (logged (Call_connect "builder-inited" Fn_run_doxygen) w)).
Proof. reflexivity. Qed.

(** X10.  [setup] does not check whether the hook is registered already:
    [n] calls in a row all return normally and add [n] listeners for
    [run_doxygen] to the end of the listeners of [builder-inited], in
    order and with consecutive ids. *)
Theorem setup_times_adds_listeners n g app w :
  exists w',
    setup_times n g app w = (Ok tt, w') /\
    default [] (listeners (sphinx w') !! "builder-inited") =
      default [] (listeners (sphinx w) !! "builder-inited") ++
      (run_doxygen_listener <$> seq (next_listener_id (sphinx w)) n) /\
    next_listener_id (sphinx w') = (next_listener_id (sphinx w) + n)%nat.
Proof.
  revert w. induction n as [|n IH]; intros w.
  - exists w. split; [done|]. simpl. by rewrite app_nil_r, Nat.add_0_r.
  - simpl setup_times. unfold mbind at 1. unfold M_bind at 1.
    rewrite setup_eq.
    destruct (IH (set_sphinx
                    (add_listener "builder-inited"
                       (run_doxygen_listener (next_listener_id (sphinx w))) (sphinx w))
                    (logged (Call_connect "builder-inited" Fn_run_doxygen) w)))
      as (w' & -> & Hls & Hid).
    exists w'. split; [done|]. rewrite Hls, Hid. simpl.
    rewrite lookup_insert_eq. simpl. rewrite <- app_assoc. split; [done|lia].
Qed.

(** X11.  The hook never returns in silence: whenever it returns
    normally, what it has added to the standard output ends in a line of
    its own, after the lines of doxygen if doxygen ran, and that line is
    the report of success or a warning. *)
Theorem run_doxygen_always_reports g app w w' :
  run_doxygen g app w = (Ok tt, w') ->
  exists out line,
    stdout w' = stdout w ++ out ++ [line] /\
    (line = success_line \/ is_warning line = true).
Proof.
  rewrite run_doxygen_eq.
  pose proof (makedirs_frame (doxygen_dir g w) true w) as (_ & _ & _ & _ & Hout & _).
  destruct (makedirs (doxygen_dir g w) true w) as [[[]|e1] w1] eqn:Hmk; [|done].
  simpl in Hout.
  rewrite try_doxygen_eq, (subprocess_run_after_makedirs _ _ _ Hmk). cbv zeta.
  destruct (programs w !! "doxygen") as [[|behaviour|code]|].
  - done.
  - destruct (behaviour _ _ _ _) as [[f' out] returncode].
    destruct (negb (returncode =? 0)); simpl; intros [= <-]; simpl.
    + eexists out, _. split; [by rewrite <- app_assoc|]. by right.
    + eexists out, _. split; [by rewrite <- app_assoc|]. by left.
  - destruct code; try done.
    simpl. intros [= <-]. simpl. exists [], not_found_line.
    rewrite Hout. split; [done|]. by right.
  - simpl. intros [= <-]. simpl. exists [], not_found_line.
    rewrite Hout. split; [done|]. by right.
Qed.

Lemma run_doxygen_always_reports_witness :
  exists out line,
    stdout (run_doxygen sample_conf the_app world_with_doxygen).2 =
      stdout world_with_doxygen ++ out ++ [line] /\
    (line = success_line \/ is_warning line = true).
Proof.
  apply (run_doxygen_always_reports sample_conf the_app world_with_doxygen).
  vm_compute. reflexivity.
Defined.
